(** * Gold Nightmare back-end: a shallow embedding in Rocq

    The development follows the Python sources of the repository:
    - [gold_bot/models.py]         users, tiers, daily quota bookkeeping;
    - [gold_bot/auth_manager.py]   registration, login, password hashing,
                                   quota checks and admin subscription update;
    - [gold_bot/admin_manager.py]  admin tier update, analysis logs and the
                                   per-user daily summary;
    - [gold_bot/gold_price.py]     the multi-provider gold price manager;
    - [backend/server.py]          the [POST /analyze] handler.

    Python [int] is [Z], Python [float] is [Q] (exact arithmetic, rounding
    is not modelled), Python [str] is a [string] of UTF-8 bytes.  The
    document store (MongoDB) is a list of documents: [find_one] returns the
    first document that matches, [update_one] rewrites the first match,
    [insert_one] appends and fails on a unique-index violation.  The
    wall clock is an explicit argument. *)

From Stdlib Require Import ZArith QArith Qfield String Ascii List Bool Lia.
From Stdlib Require Import Sorted Permutation FinFun.
Import ListNotations.

Open Scope string_scope.

(* ------------------------------------------------------------------ *)
(** ** Small helpers on strings and numbers *)

Module Py.

(** Python [a == b] on strings. *)
Definition str_eqb (a b : string) : bool := String.eqb a b.

(** Python [x != y] on [Optional[str]] against a [str]. *)
Definition opt_str_neq (x : option string) (y : string) : bool :=
  match x with
  | Some s => negb (String.eqb s y)
  | None => true
  end.

(** Decimal rendering of a non-negative integer, as in an f-string. *)
Fixpoint digits_aux (fuel : nat) (n : Z) (acc : string) : string :=
  match fuel with
  | O => acc
  | S f =>
      let d := Z.modulo n 10 in
      let c := ascii_of_nat (48 + Z.to_nat d) in
      let q := Z.div n 10 in
      if Z.eqb q 0 then String c acc else digits_aux f q (String c acc)
  end.

Definition z_to_str (n : Z) : string :=
  if Z.ltb n 0 then String "-" (digits_aux 64 (- n) "")
  else digits_aux 64 n "".

(** Python [str.lower()] on the ASCII range. *)
Definition lower_char (c : ascii) : ascii :=
  let n := nat_of_ascii c in
  if (65 <=? n)%nat && (n <=? 90)%nat then ascii_of_nat (n + 32) else c.

Fixpoint lower (s : string) : string :=
  match s with
  | EmptyString => EmptyString
  | String c r => String (lower_char c) (lower r)
  end.

End Py.

(* ------------------------------------------------------------------ *)
(** ** [models.py]: users, tiers and the daily counter *)

Module Models.

Local Open Scope Z_scope.

Inductive UserTier := BASIC | PREMIUM | VIP.
Inductive UserStatus := INACTIVE | ACTIVE | BLOCKED | SUSPENDED.
Inductive AnalysisType := QUICK | DETAILED | CHART | NEWS | FORECAST.

Definition UserTier_value (t : UserTier) : string :=
  match t with BASIC => "basic" | PREMIUM => "premium" | VIP => "vip" end.

(** [UserTier(s)]: the enum constructor, [None] for its [ValueError]. *)
Definition UserTier_of_string (s : string) : option UserTier :=
  if String.eqb s "basic" then Some BASIC
  else if String.eqb s "premium" then Some PREMIUM
  else if String.eqb s "vip" then Some VIP
  else None.

Definition AnalysisType_of_string (s : string) : option AnalysisType :=
  if String.eqb s "quick" then Some QUICK
  else if String.eqb s "detailed" then Some DETAILED
  else if String.eqb s "chart" then Some CHART
  else if String.eqb s "news" then Some NEWS
  else if String.eqb s "forecast" then Some FORECAST
  else None.

(** The fields of the [User] dataclass that the operations below read or
    write; the optional display fields ([username], [first_name], ...)
    are carried along unchanged by every operation and are left out. *)
Record User := mkUser {
  user_id : Z;
  email : string;
  password_hash : string;
  tier : UserTier;
  subscription_start_date : option Q;
  subscription_end_date : option Q;
  total_analyses : Z;
  daily_analyses_count : Z;
  daily_analyses_date : option string;
  status : UserStatus;
  updated_at : Q;
  last_seen : option Q
}.

Definition set_daily (u : User) (c : Z) (d : option string) : User :=
  mkUser (user_id u) (email u) (password_hash u) (tier u)
    (subscription_start_date u) (subscription_end_date u)
    (total_analyses u) c d (status u) (updated_at u) (last_seen u).

Definition set_counts (u : User) (total daily : Z) (upd : Q) : User :=
  mkUser (user_id u) (email u) (password_hash u) (tier u)
    (subscription_start_date u) (subscription_end_date u)
    total daily (daily_analyses_date u) (status u) upd (last_seen u).

Definition set_tier (u : User) (t : UserTier) : User :=
  mkUser (user_id u) (email u) (password_hash u) t
    (subscription_start_date u) (subscription_end_date u)
    (total_analyses u) (daily_analyses_count u) (daily_analyses_date u)
    (status u) (updated_at u) (last_seen u).

Definition set_subscription (u : User) (st en : option Q) : User :=
  mkUser (user_id u) (email u) (password_hash u) (tier u) st en
    (total_analyses u) (daily_analyses_count u) (daily_analyses_date u)
    (status u) (updated_at u) (last_seen u).

Definition set_updated (u : User) (t : Q) : User :=
  mkUser (user_id u) (email u) (password_hash u) (tier u)
    (subscription_start_date u) (subscription_end_date u)
    (total_analyses u) (daily_analyses_count u) (daily_analyses_date u)
    (status u) t (last_seen u).

Definition set_last_seen (u : User) (t : Q) : User :=
  mkUser (user_id u) (email u) (password_hash u) (tier u)
    (subscription_start_date u) (subscription_end_date u)
    (total_analyses u) (daily_analyses_count u) (daily_analyses_date u)
    (status u) (updated_at u) (Some t).

(** [User.get_daily_limit] *)
Definition get_daily_limit (u : User) : Z :=
  match tier u with
  | BASIC => 1
  | PREMIUM => 5
  | VIP => -1
  end.

(** [User.get_remaining_analyses_today]: the method resets the counter of
    the object it is called on when the stored date is not [today]; the
    updated object is returned with the result. *)
Definition get_remaining_analyses_today (today : string) (u : User) : Z * User :=
  let u1 := if Py.opt_str_neq (daily_analyses_date u) today
            then set_daily u 0 (Some today) else u in
  let limit := get_daily_limit u1 in
  if Z.eqb limit (-1) then (-1, u1)
  else (Z.max 0 (limit - daily_analyses_count u1), u1).

(** [User.can_analyze_today] *)
Definition can_analyze_today (today : string) (u : User) : bool * User :=
  let (remaining, u1) := get_remaining_analyses_today today u in
  (negb (Z.eqb remaining 0), u1).

(** [User.increment_daily_analysis]; [now] is [datetime.utcnow()] and
    [today] its [%Y-%m-%d] rendering. *)
Definition increment_daily_analysis (now : Q) (today : string) (u : User)
  : bool * User :=
  let (ok, u1) := can_analyze_today today u in
  if negb ok then (false, u1)
  else
    let u2 := if Py.opt_str_neq (daily_analyses_date u1) today
              then set_daily u1 0 (Some today) else u1 in
    (true, set_counts u2 (total_analyses u2 + 1)
                         (daily_analyses_count u2 + 1) now).

Definition is_active (u : User) : bool :=
  match status u with ACTIVE => true | _ => false end.

(** [User.get_rate_limit] *)
Definition get_rate_limit (u : User) : Z :=
  match tier u with BASIC => 5 | PREMIUM => 20 | VIP => 50 end.

Definition UserStatus_value (s : UserStatus) : string :=
  match s with
  | INACTIVE => "inactive" | ACTIVE => "active"
  | BLOCKED => "blocked" | SUSPENDED => "suspended"
  end.

Definition set_status (u : User) (s : UserStatus) (t : Q) : User :=
  mkUser (user_id u) (email u) (password_hash u) (tier u)
    (subscription_start_date u) (subscription_end_date u)
    (total_analyses u) (daily_analyses_count u) (daily_analyses_date u)
    s t (last_seen u).

(** The feature dictionary of [User.get_tier_features]. *)
Record TierFeatures := mkFeatures {
  daily_analyses : Z;
  save_history : bool;
  priority_support : bool;
  advanced_charts : bool;
  voice_analysis : bool;
  custom_indicators : bool
}.

(** [User.get_tier_features]; the [features.get] default is never used,
    the table has an entry for every tier. *)
Definition get_tier_features (u : User) : TierFeatures :=
  match tier u with
  | BASIC => mkFeatures 1 false false false false false
  | PREMIUM => mkFeatures 5 true false true false false
  | VIP => mkFeatures (-1) true true true true true
  end.

End Models.

(* ------------------------------------------------------------------ *)
(** ** [hashlib.sha256(...).hexdigest()] (FIPS 180-4)

    The password digest of [auth_manager.py] is SHA-256 from Python's
    standard library; it is written out here so that the digest is the
    real function, a string of 64 lower-case hexadecimal digits. *)

Module Sha256.

Local Open Scope Z_scope.

Definition w32 (x : Z) : Z := Z.land x (2 ^ 32 - 1).
Definition rotr (x : Z) (n : Z) : Z :=
  w32 (Z.lor (Z.shiftr x n) (Z.shiftl x (32 - n))).
Definition add (a b : Z) : Z := w32 (a + b).

Definition ch (e f g : Z) : Z :=
  Z.lxor (Z.land e f) (Z.land (Z.lxor e (2 ^ 32 - 1)) g).
Definition maj (a b c : Z) : Z :=
  Z.lxor (Z.land a b) (Z.lxor (Z.land a c) (Z.land b c)).
Definition bsig0 (a : Z) : Z := Z.lxor (rotr a 2) (Z.lxor (rotr a 13) (rotr a 22)).
Definition bsig1 (e : Z) : Z := Z.lxor (rotr e 6) (Z.lxor (rotr e 11) (rotr e 25)).
Definition ssig0 (x : Z) : Z := Z.lxor (rotr x 7) (Z.lxor (rotr x 18) (Z.shiftr x 3)).
Definition ssig1 (x : Z) : Z := Z.lxor (rotr x 17) (Z.lxor (rotr x 19) (Z.shiftr x 10)).

(** The round constants of FIPS 180-4, section 4.2.2, in decimal. *)
Definition K : list Z :=
  [1116352408; 1899447441; 3049323471; 3921009573; 961987163; 1508970993;
   2453635748; 2870763221; 3624381080; 310598401; 607225278; 1426881987;
   1925078388; 2162078206; 2614888103; 3248222580; 3835390401; 4022224774;
   264347078; 604807628; 770255983; 1249150122; 1555081692; 1996064986;
   2554220882; 2821834349; 2952996808; 3210313671; 3336571891; 3584528711;
   113926993; 338241895; 666307205; 773529912; 1294757372; 1396182291;
   1695183700; 1986661051; 2177026350; 2456956037; 2730485921; 2820302411;
   3259730800; 3345764771; 3516065817; 3600352804; 4094571909; 275423344;
   430227734; 506948616; 659060556; 883997877; 958139571; 1322822218;
   1537002063; 1747873779; 1955562222; 2024104815; 2227730452; 2361852424;
   2428436474; 2756734187; 3204031479; 3329325298].

(** The eight working words [a..h] (and the chaining value [H0..H7]). *)
Record state := mkState { sa : Z; sb : Z; sc : Z; sd : Z; se : Z; sf : Z; sg : Z; sh : Z }.

Definition H0 : state :=
  mkState 0x6a09e667 0xbb67ae85 0x3c6ef372 0xa54ff53a
          0x510e527f 0x9b05688c 0x1f83d9ab 0x5be0cd19.

Definition round (s : state) (kw : Z * Z) : state :=
  let (k, w) := kw in
  let t1 := add (add (add (add (sh s) (bsig1 (se s))) (ch (se s) (sf s) (sg s))) k) w in
  let t2 := add (bsig0 (sa s)) (maj (sa s) (sb s) (sc s)) in
  mkState (add t1 t2) (sa s) (sb s) (sc s) (add (sd s) t1) (se s) (sf s) (sg s).

(** Message schedule: [ws] holds [W(t-1), ..., W(0)] (most recent first). *)
Fixpoint schedule (fuel : nat) (ws : list Z) : list Z :=
  match fuel with
  | O => ws
  | S f =>
      let w := add (add (add (ssig1 (nth 1 ws 0)) (nth 6 ws 0))
                        (ssig0 (nth 14 ws 0))) (nth 15 ws 0) in
      schedule f (w :: ws)
  end.

Fixpoint words_of_block (bs : list Z) : list Z :=
  match bs with
  | b0 :: b1 :: b2 :: b3 :: r =>
      (b0 * 2 ^ 24 + b1 * 2 ^ 16 + b2 * 2 ^ 8 + b3) :: words_of_block r
  | _ => []
  end.

Definition compress (h : state) (block : list Z) : state :=
  let w := rev (schedule 48 (rev (words_of_block block))) in
  let s := fold_left round (combine K w) h in
  mkState (add (sa h) (sa s)) (add (sb h) (sb s)) (add (sc h) (sc s))
          (add (sd h) (sd s)) (add (se h) (se s)) (add (sf h) (sf s))
          (add (sg h) (sg s)) (add (sh h) (sh s)).

Fixpoint be_bytes (n : nat) (x : Z) : list Z :=
  match n with
  | O => []
  | S m => be_bytes m (Z.shiftr x 8) ++ [Z.land x 255]
  end.

Definition pad (msg : list Z) : list Z :=
  let len := Z.of_nat (length msg) in
  let k := Z.to_nat ((55 - len) mod 64) in
  msg ++ [128] ++ repeat 0 k ++ be_bytes 8 (8 * len).

Fixpoint blocks (fuel : nat) (bs : list Z) : list (list Z) :=
  match fuel with
  | O => []
  | S f =>
      match bs with
      | [] => []
      | _ => firstn 64 bs :: blocks f (skipn 64 bs)
      end
  end.

Definition sha256 (msg : list Z) : state :=
  let p := pad msg in
  fold_left compress (blocks (length p) p) H0.

Definition hexchars : list ascii :=
  ["0"; "1"; "2"; "3"; "4"; "5"; "6"; "7"; "8"; "9";
   "a"; "b"; "c"; "d"; "e"; "f"]%char.

Definition hexd (n : Z) : ascii := nth (Z.to_nat (n mod 16)) hexchars "0"%char.

(** A 32-bit word as eight hexadecimal digits. *)
Definition hex8 (w : Z) : string :=
  String (hexd (Z.shiftr w 28)) (String (hexd (Z.shiftr w 24))
  (String (hexd (Z.shiftr w 20)) (String (hexd (Z.shiftr w 16))
  (String (hexd (Z.shiftr w 12)) (String (hexd (Z.shiftr w 8))
  (String (hexd (Z.shiftr w 4)) (String (hexd w) EmptyString))))))).

(** A byte as two hexadecimal digits ([bytes.hex()]). *)
Definition hex2 (b : Z) : string :=
  String (hexd (Z.shiftr b 4)) (String (hexd b) EmptyString).

Definition hexdigest (s : state) : string :=
  hex8 (sa s) ++ hex8 (sb s) ++ hex8 (sc s) ++ hex8 (sd s) ++
  hex8 (se s) ++ hex8 (sf s) ++ hex8 (sg s) ++ hex8 (sh s).

End Sha256.

(* ------------------------------------------------------------------ *)
(** ** [auth_manager.py]: registration, login, quota checks *)

Module Auth.

Import Models.
Local Open Scope Z_scope.

(** [str.encode()] : the model's strings already are UTF-8 bytes. *)
Definition encode (s : string) : list Z :=
  map (fun c => Z.of_nat (nat_of_ascii c)) (list_ascii_of_string s).

(** Python [len(s)]: the number of code points, i.e. the bytes of the
    UTF-8 encoding that are not continuation bytes [10xxxxxx]. *)
Definition py_len (s : string) : nat :=
  length (filter (fun c => negb ((128 <=? nat_of_ascii c)%nat
                                 && (nat_of_ascii c <? 192)%nat))
                 (list_ascii_of_string s)).

(** [secrets.token_hex(16)]: the hexadecimal rendering of 16 random
    bytes; the bytes are an input of the operations that draw them. *)
Definition token_hex (rnd : list Z) : string :=
  fold_right (fun b acc => Sha256.hex2 b ++ acc) "" rnd.

(** [str.split(':')] *)
Fixpoint split_colon_aux (s : string) (cur : string) : list string :=
  match s with
  | EmptyString => [cur]
  | String c r =>
      if Ascii.eqb c ":" then cur :: split_colon_aux r ""
      else split_colon_aux r (cur ++ String c "")
  end.

Definition split_colon (s : string) : list string := split_colon_aux s "".

Definition digest (password salt : string) : string :=
  Sha256.hexdigest (Sha256.sha256 (encode (password ++ salt))).

(** [AuthManager._hash_password]; [rnd] are the bytes drawn by
    [secrets.token_hex(16)]. *)
Definition _hash_password (rnd : list Z) (password : string) : string :=
  let salt := token_hex rnd in
  salt ++ ":" ++ digest password salt.

(** [AuthManager._verify_password]: the tuple unpacking of the split
    raises (and the method returns [False]) unless there are exactly two
    parts. *)
Definition _verify_password (password hashed : string) : bool :=
  match split_colon hashed with
  | [salt; password_hash] => String.eqb (digest password salt) password_hash
  | _ => false
  end.

(** Character classes of the e-mail pattern
    [^[a-zA-Z0-9._%+-]+@[a-zA-Z0-9.-]+\.[a-zA-Z]{2,}$]. *)
Definition is_alpha (c : ascii) : bool :=
  let n := nat_of_ascii c in
  ((65 <=? n)%nat && (n <=? 90)%nat) || ((97 <=? n)%nat && (n <=? 122)%nat).
Definition is_digit (c : ascii) : bool :=
  let n := nat_of_ascii c in (48 <=? n)%nat && (n <=? 57)%nat.
Definition is_local_char (c : ascii) : bool :=
  is_alpha c || is_digit c || Ascii.eqb c "." || Ascii.eqb c "_"
  || Ascii.eqb c "%" || Ascii.eqb c "+" || Ascii.eqb c "-".
Definition is_domain_char (c : ascii) : bool :=
  is_alpha c || is_digit c || Ascii.eqb c "." || Ascii.eqb c "-".

(** Split a list at the first occurrence of [sep]. *)
Fixpoint split_first (sep : ascii) (l : list ascii) : option (list ascii * list ascii) :=
  match l with
  | [] => None
  | c :: r =>
      if Ascii.eqb c sep then Some ([], r)
      else match split_first sep r with
           | Some (a, b) => Some (c :: a, b)
           | None => None
           end
  end.

(** The pattern on the whole input.  The local part cannot contain [@],
    so it ends at the first [@]; the top-level label cannot contain [.],
    so it starts after the last [.]. *)
Definition email_full_match (l : list ascii) : bool :=
  match split_first "@" l with
  | None => false
  | Some (local, rest) =>
      negb (List.length local =? 0)%nat && forallb is_local_char local &&
      match split_first "." (rev rest) with
      | None => false
      | Some (tld_rev, dom_rev) =>
          (2 <=? List.length tld_rev)%nat && forallb is_alpha tld_rev &&
          negb (List.length dom_rev =? 0)%nat && forallb is_domain_char dom_rev
      end
  end.

(** [AuthManager._validate_email]: [re.match] with a final [$], which also
    matches before a single trailing newline. *)
Definition _validate_email (email : string) : bool :=
  let l := list_ascii_of_string email in
  email_full_match l ||
  match rev l with
  | c :: r => Ascii.eqb c (ascii_of_nat 10) && email_full_match (rev r)
  | [] => false
  end.

Definition msg_pw_short : string := "كلمة المرور يجب أن تكون 6 أحرف على الأقل".
Definition msg_pw_letters : string := "كلمة المرور يجب أن تحتوي على حروف".
Definition msg_pw_digits : string := "كلمة المرور يجب أن تحتوي على أرقام".
Definition msg_bad_email : string := "البريد الإلكتروني غير صحيح".
Definition msg_already_registered : string := "البريد الإلكتروني مُسجل مسبقاً".
Definition msg_register_failed : string := "حدث خطأ في التسجيل، يرجى المحاولة مرة أخرى".
Definition msg_unknown_email : string := "البريد الإلكتروني غير مُسجل".
Definition msg_bad_password : string := "كلمة المرور غير صحيحة".
Definition msg_inactive_login : string := "الحساب غير مفعل، تواصل مع الإدارة".
Definition msg_login_failed : string := "حدث خطأ في تسجيل الدخول، يرجى المحاولة مرة أخرى".
Definition msg_user_not_found : string := "المستخدم غير موجود".
Definition msg_inactive : string := "الحساب غير مفعل".
Definition msg_free_exhausted : string := "تم استنفاد التحليل المجاني اليوم. ترقية الاشتراك للمزيد".
Definition msg_db_update_failed : string := "فشل في تحديث قاعدة البيانات".

(** [AuthManager._validate_password] *)
Definition _validate_password (password : string) : bool * string :=
  if (py_len password <? 6)%nat then (false, msg_pw_short)
  else if negb (existsb is_alpha (list_ascii_of_string password))
  then (false, msg_pw_letters)
  else if negb (existsb is_digit (list_ascii_of_string password))
  then (false, msg_pw_digits)
  else (true, "").

(** [UserAuthResponse] *)
Record UserAuthResponse := mkResp {
  success : bool;
  resp_user_id : option Z;
  resp_email : option string;
  resp_tier : option string;
  daily_analyses_remaining : option Z;
  error : option string
}.

Definition fail (msg : string) : UserAuthResponse :=
  mkResp false None None None None (Some msg).

(** The wall clock: [datetime.utcnow()] and its [%Y-%m-%d] rendering. *)
Record Clock := mkClock { now : Q; today : string }.

(** A document of the [users] collection: the fields written by
    [User.to_dict], and the [_id] the server adds on insert ([None] for a
    document without one). *)
Record UserDoc := mkDoc { _id : option Z; doc : User }.

(** [User.from_dict]: [cls] applied to the document as keyword arguments after the enum conversions.  The
    dataclass has no parameter [_id], so a document that carries one
    raises [TypeError] ([None]). *)
Definition from_dict (d : UserDoc) : option User :=
  match _id d with
  | Some _ => None
  | None => Some (doc d)
  end.

(** The [users] collection and the id counter of the manager. *)
Record AuthState := mkAuth { users : list UserDoc; user_counter : Z }.

(** [find_one({"email": e})] *)
Definition find_by_email (e : string) (db : list UserDoc) : option UserDoc :=
  find (fun d => String.eqb (email (doc d)) e) db.

(** [find_one({"user_id": uid})] *)
Definition find_by_id (uid : Z) (db : list UserDoc) : option UserDoc :=
  find (fun d => Z.eqb (user_id (doc d)) uid) db.

(** [insert_one] on the collection with the unique indexes on [email]
    and [user_id] created by [initialize]: a duplicate key raises; the
    stored document receives an [_id] (an ObjectId; here its position). *)
Definition insert_one (u : User) (db : list UserDoc) : option (list UserDoc) :=
  if existsb (fun d => String.eqb (email (doc d)) (email u)
                       || Z.eqb (user_id (doc d)) (user_id u)) db
  then None else Some (app db [mkDoc (Some (Z.of_nat (length db))) u]).

(** [update_one({"user_id": uid}, {"$set": ...})]: rewrites the fields of
    the first document with that id; its [_id] stays. *)
Fixpoint update_by_id (uid : Z) (f : User -> User) (db : list UserDoc) : list UserDoc :=
  match db with
  | [] => []
  | d :: r =>
      if Z.eqb (user_id (doc d)) uid then mkDoc (_id d) (f (doc d)) :: r
      else d :: update_by_id uid f r
  end.

(** [AuthManager.get_user_by_id]: [None] when no document matches or
    when [User.from_dict] raises (the exception is caught). *)
Definition get_user_by_id (db : list UserDoc) (uid : Z) : option User :=
  match find_by_id uid db with
  | Some d => from_dict d
  | None => None
  end.

(** [AuthManager.update_user]: [$set] of every field; [modified_count > 0]
    holds when a document matched, since [updated_at] is set to the
    current time. *)
Definition update_user (clk : Clock) (u : User) (db : list UserDoc) : bool * list UserDoc :=
  let u' := set_updated u (now clk) in
  (existsb (fun d => Z.eqb (user_id (doc d)) (user_id u)) db,
   update_by_id (user_id u) (fun _ => u') db).

(** [AuthManager.register_user]; [rnd] are the salt bytes. *)
Definition register_user (clk : Clock) (rnd : list Z) (st : AuthState)
    (req_email req_password : string) : UserAuthResponse * AuthState :=
  if negb (_validate_email req_email) then (fail msg_bad_email, st)
  else match find_by_email req_email (users st) with
  | Some _ => (fail msg_already_registered, st)
  | None =>
      let (ok, perr) := _validate_password req_password in
      if negb ok then (fail perr, st)
      else
        let new_user :=
          mkUser (user_counter st) (Py.lower req_email)
                 (_hash_password rnd req_password) BASIC
                 (Some (now clk)) None 0 0 None ACTIVE (now clk) None in
        match insert_one new_user (users st) with
        | None => (fail msg_register_failed, st)
        | Some db =>
            (mkResp true (Some (user_id new_user)) (Some (email new_user))
                    (Some (UserTier_value (tier new_user)))
                    (Some (fst (get_remaining_analyses_today (today clk) new_user)))
                    None,
             mkAuth db (user_counter st + 1))
        end
  end.

(** [AuthManager.login_user] *)
Definition login_user (clk : Clock) (st : AuthState)
    (req_email req_password : string) : UserAuthResponse * AuthState :=
  match find_by_email (Py.lower req_email) (users st) with
  | None => (fail msg_unknown_email, st)
  | Some d =>
    match from_dict d with
    | None => (fail msg_login_failed, st)
    | Some u =>
      if negb (_verify_password req_password (password_hash u))
      then (fail msg_bad_password, st)
      else if negb (is_active u) then (fail msg_inactive_login, st)
      else
        let u1 := set_last_seen u (now clk) in
        let db := update_by_id (user_id u) (fun v => set_last_seen v (now clk)) (users st) in
        (mkResp true (Some (user_id u1)) (Some (email u1))
                (Some (UserTier_value (tier u1)))
                (Some (fst (get_remaining_analyses_today (today clk) u1))) None,
         mkAuth db (user_counter st))
    end
  end.

(** [AuthManager.can_user_analyze] *)
Definition can_user_analyze (clk : Clock) (db : list UserDoc) (uid : Z)
  : bool * string * Z :=
  match get_user_by_id db uid with
  | None => (false, msg_user_not_found, 0)
  | Some u =>
      if negb (is_active u) then (false, msg_inactive, 0)
      else
        let (ok, u1) := can_analyze_today (today clk) u in
        if negb ok then
          let limit := get_daily_limit u1 in
          if Z.eqb limit 1 then (false, msg_free_exhausted, 0)
          else (false, "تم استنفاد حد التحليلات اليومية (" ++ Py.z_to_str limit ++ " تحليلات)", 0)
        else (true, "", fst (get_remaining_analyses_today (today clk) u1))
  end.

(** [AuthManager.record_analysis] *)
Definition record_analysis (clk : Clock) (db : list UserDoc) (uid : Z) : bool * list UserDoc :=
  match get_user_by_id db uid with
  | None => (false, db)
  | Some u =>
      let (ok, u1) := increment_daily_analysis (now clk) (today clk) u in
      if ok then (true, snd (update_user clk u1 db)) else (false, db)
  end.

(** The result dictionaries of the admin operations. *)
Inductive AdminResult :=
  | TierUpdated (old_tier new_tier : string) (new_limit : Z)
  | AdminError (msg : string).

(** [AuthManager.update_user_subscription] *)
Definition update_user_subscription (clk : Clock) (db : list UserDoc)
    (uid : Z) (new_tier : string) : AdminResult * list UserDoc :=
  match UserTier_of_string new_tier with
  | None => (AdminError ("نوع اشتراك غير صحيح: " ++ new_tier), db)
  | Some t =>
      match get_user_by_id db uid with
      | None => (AdminError msg_user_not_found, db)
      | Some u =>
          let old_tier := UserTier_value (tier u) in
          let u1 := set_tier u t in
          let u2 := set_subscription u1 (Some (now clk))
                                      (Some (now clk + 365 * 86400)%Q) in
          let u3 := set_daily u2 0 (Some (today clk)) in
          let (ok, db') := update_user clk u3 db in
          if ok then (TierUpdated old_tier new_tier (get_daily_limit u3), db')
          else (AdminError msg_db_update_failed, db')
      end
  end.

(** [AuthManager.get_user_by_email] *)
Definition get_user_by_email (db : list UserDoc) (e : string) : option User :=
  match find_by_email (Py.lower e) db with
  | Some d => from_dict d
  | None => None
  end.

(** The counter set up by [AuthManager.initialize]:
    [find({}).sort("user_id", -1).limit(1)] gives the document with the
    largest id, and the counter becomes that id plus one; on an empty
    collection it keeps its initial value.  The index creation before it
    (which raises on a collection that already holds duplicate keys) is
    assumed to succeed. *)
Definition initialize (st : AuthState) : AuthState :=
  match users st with
  | [] => st
  | d :: r =>
      mkAuth (users st)
             (fold_left Z.max (map (fun v => user_id (doc v)) r) (user_id (doc d)) + 1)
  end.

End Auth.

(* ------------------------------------------------------------------ *)
(** ** [admin_manager.py]: analysis logs, daily summaries, tier update *)

Module Admin.

Import Models Auth.
Local Open Scope Z_scope.

(** [AnalysisLog] *)
Record AnalysisLog := mkLog {
  log_user_id : Z;
  log_analysis_type : AnalysisType;
  log_success : bool;
  log_processing_time : option Q;
  log_error_message : option string;
  log_user_tier : UserTier;
  log_gold_price : option Q
}.

(** [UserDailySummary] *)
Record UserDailySummary := mkSummary {
  sum_user_id : Z;
  sum_date : string;
  total_requests : Z;
  successful_analyses : Z;
  failed_analyses : Z;
  avg_response_time : Q;
  quick_analyses : Z;
  detailed_analyses : Z;
  chart_analyses : Z;
  news_analyses : Z;
  forecast_analyses : Z
}.

Definition new_summary (uid : Z) (d : string) : UserDailySummary :=
  mkSummary uid d 0 0 0 0%Q 0 0 0 0 0.

(** A document of [daily_summaries]: the fields of [to_dict] and the
    [_id] the server adds on insert. *)
Record SummaryDoc := mkSDoc { s_id : option Z; sdoc : UserDailySummary }.

(** [UserDailySummary] applied to the document as keyword arguments: the dataclass has no parameter
    [_id], so a document that carries one raises [TypeError]. *)
Definition summary_from_dict (d : SummaryDoc) : option UserDailySummary :=
  match s_id d with
  | Some _ => None
  | None => Some (sdoc d)
  end.

(** The collections the admin manager writes. *)
Record AdminState := mkAdmin {
  am_users : list UserDoc;
  am_logs : list AnalysisLog;
  am_summaries : list SummaryDoc
}.

Definition summary_key (uid : Z) (d : string) (s : UserDailySummary) : bool :=
  Z.eqb (sum_user_id s) uid && String.eqb (sum_date s) d.

(** [find_one({"user_id": uid, "date": d})] *)
Definition find_summary (uid : Z) (d : string) (db : list SummaryDoc) : option SummaryDoc :=
  find (fun x => summary_key uid d (sdoc x)) db.

(** [replace_one(filter, doc, upsert=True)]: a replaced document keeps
    its [_id]; an upserted one receives a fresh one (here its position). *)
Fixpoint replace_summary_at (n : Z) (uid : Z) (d : string) (s : UserDailySummary)
    (db : list SummaryDoc) : list SummaryDoc :=
  match db with
  | [] => [mkSDoc (Some n) s]
  | x :: r =>
      if summary_key uid d (sdoc x) then mkSDoc (s_id x) s :: r
      else x :: replace_summary_at (n + 1) uid d s r
  end.

Definition replace_summary (uid : Z) (d : string) (s : UserDailySummary)
    (db : list SummaryDoc) : list SummaryDoc :=
  replace_summary_at 0 uid d s db.

(** The counter and running-mean update of [_update_daily_summary]. *)
Definition bump_summary (s : UserDailySummary) (t : AnalysisType) (success : bool)
    (processing_time : Q) : UserDailySummary :=
  let total := total_requests s + 1 in
  let ok := if success then successful_analyses s + 1 else successful_analyses s in
  let ko := if success then failed_analyses s else failed_analyses s + 1 in
  let q := match t with QUICK => quick_analyses s + 1 | _ => quick_analyses s end in
  let de := match t with DETAILED => detailed_analyses s + 1 | _ => detailed_analyses s end in
  let ch := match t with CHART => chart_analyses s + 1 | _ => chart_analyses s end in
  let ne := match t with NEWS => news_analyses s + 1 | _ => news_analyses s end in
  let fo := match t with FORECAST => forecast_analyses s + 1 | _ => forecast_analyses s end in
  let avg :=
    if 1 <? total then
      let total_time := (avg_response_time s * inject_Z (total - 1) + processing_time)%Q in
      (total_time / inject_Z total)%Q
    else processing_time in
  mkSummary (sum_user_id s) (sum_date s) total ok ko avg q de ch ne fo.

(** [AdminManager._update_daily_summary]; an exception (the [TypeError]
    of that keyword call) is logged and the collection
    is left as it is. *)
Definition _update_daily_summary (clk : Clock) (db : list SummaryDoc)
    (uid : Z) (t : AnalysisType) (success : bool) (processing_time : Q)
  : list SummaryDoc :=
  let d := today clk in
  let summary :=
    match find_summary uid d db with
    | Some x => summary_from_dict x
    | None => Some (new_summary uid d)
    end in
  match summary with
  | None => db
  | Some s => replace_summary uid d (bump_summary s t success processing_time) db
  end.

(** [AdminManager.log_analysis] *)
Definition log_analysis (clk : Clock) (st : AdminState) (uid : Z) (t : AnalysisType)
    (success : bool) (processing_time : option Q) (error_message : option string)
    (gold_price : option Q) (user_tier : UserTier) : AdminState :=
  let entry := mkLog uid t success processing_time error_message user_tier gold_price in
  let pt := match processing_time with Some x => x | None => 0%Q end in
  mkAdmin (am_users st) (app (am_logs st) [entry])
          (_update_daily_summary clk (am_summaries st) uid t success pt).

(** The result dictionary of [update_user_tier]. *)
Inductive TierResult :=
  | TierOk (old_tier new_tier : string) (new_rate_limit : Z)
  | TierErr (msg : string).

(** [str(e)] of the [TypeError] raised by [User.from_dict] on a stored
    document (the text of Python 3.10 and later). *)
Definition msg_unexpected_id : string :=
  "User.__init__() got an unexpected keyword argument '_id'".

(** [AdminManager.update_user_tier] *)
Definition update_user_tier (clk : Clock) (st : AdminState) (uid : Z)
    (new_tier admin_id : string) : TierResult * AdminState :=
  match UserTier_of_string new_tier with
  | None => (TierErr ("Invalid tier: " ++ new_tier), st)
  | Some t =>
      match find_by_id uid (am_users st) with
      | None => (TierErr "User not found", st)
      | Some d =>
        match from_dict d with
        | None => (TierErr msg_unexpected_id, st)
        | Some u =>
          let old_tier := UserTier_value (tier u) in
          let u1 := set_updated (set_tier u t) (now clk) in
          let st1 := mkAdmin (update_by_id uid (fun _ => u1) (am_users st))
                             (am_logs st) (am_summaries st) in
          let msg := "Admin " ++ admin_id ++ " changed user " ++ Py.z_to_str uid
                     ++ " tier from " ++ old_tier ++ " to " ++ new_tier in
          let st2 := log_analysis clk st1 0 QUICK true (Some 0%Q) (Some msg) None BASIC in
          (TierOk old_tier new_tier (get_rate_limit u1), st2)
        end
      end
  end.

(** The result dictionary of [toggle_user_status]. *)
Inductive ToggleResult :=
  | Toggled (new_status action : string)
  | ToggleErr (msg : string).

(** [AdminManager.toggle_user_status].  It also sets [activated_at] when
    it activates; that field is read by no operation modelled here and is
    not part of the record. *)
Definition toggle_user_status (clk : Clock) (st : AdminState) (uid : Z)
    (admin_id : string) : ToggleResult * AdminState :=
  match find_by_id uid (am_users st) with
  | None => (ToggleErr "User not found", st)
  | Some d =>
    match from_dict d with
    | None => (ToggleErr msg_unexpected_id, st)
    | Some u =>
      let go (new_status : UserStatus) (action : string) :=
        let u1 := set_status u new_status (now clk) in
        let st1 := mkAdmin (update_by_id uid (fun _ => u1) (am_users st))
                           (am_logs st) (am_summaries st) in
        let msg := "Admin " ++ admin_id ++ " " ++ action ++ " user " ++ Py.z_to_str uid in
        let st2 := log_analysis clk st1 0 QUICK true (Some 0%Q) (Some msg) None BASIC in
        (Toggled (UserStatus_value new_status) action, st2) in
      match status u with
      | ACTIVE => go INACTIVE "deactivated"
      | INACTIVE => go ACTIVE "activated"
      | s => (ToggleErr ("Cannot toggle user with status: " ++ UserStatus_value s), st)
      end
    end
  end.

(** One entry of the [users] list of [get_all_users] (the display fields
    [username], [first_name], [last_name] and the timestamps are left
    out). *)
Record UserRow := mkRow {
  row_user_id : Z;
  row_status : string;
  row_tier : string;
  row_total_analyses : Z;
  row_today_count : Z;
  row_rate_limit : Z;
  row_is_active : bool
}.

Record UsersPage := mkPage {
  page_users : list UserRow;
  page_total : Z;
  page_num : Z;
  page_per_page : Z;
  total_pages : Z
}.

(** The row of a loaded user; [today_count] reads [total_requests] of the
    raw summary document of today. *)
Definition user_row (clk : Clock) (st : AdminState) (u : User) : UserRow :=
  let today_count :=
    match find_summary (user_id u) (today clk) (am_summaries st) with
    | Some x => total_requests (sdoc x)
    | None => 0
    end in
  mkRow (user_id u) (UserStatus_value (status u)) (UserTier_value (tier u))
        (total_analyses u) today_count (get_rate_limit u) (is_active u).

(** [AdminManager.get_all_users].  A negative [skip] makes the cursor
    raise, a negative [to_list] length too, and [per_page = 0] divides by
    zero: these are the cases [page < 1] or [per_page < 1], which end in
    the fallback dictionary of the [except].  A document that
    [User.from_dict] cannot load is skipped. *)
Definition get_all_users (clk : Clock) (st : AdminState) (page per_page : Z) : UsersPage :=
  if (page <? 1) || (per_page <? 1) then mkPage [] 0 1 per_page 0
  else
    let skip := (page - 1) * per_page in
    let slice := firstn (Z.to_nat per_page) (skipn (Z.to_nat skip) (am_users st)) in
    let rows := flat_map (fun d => match from_dict d with
                                   | Some u => [user_row clk st u]
                                   | None => []
                                   end) slice in
    let total := Z.of_nat (length (am_users st)) in
    mkPage rows total page per_page ((total + per_page - 1) / per_page).

(** [count_documents] with a filter on the stored fields. *)
Definition count_documents (p : User -> bool) (db : list UserDoc) : Z :=
  Z.of_nat (length (filter (fun d => p (doc d)) db)).

(** The [user_stats] part of [AdminManager.get_dashboard_stats], on the
    path where the statistics are computed without an exception. *)
Record UserStats := mkUStats {
  total_users : Z;
  active_users : Z;
  inactive_users : Z;
  blocked_users : Z;
  basic_users : Z;
  premium_users : Z;
  vip_users : Z
}.

Definition dashboard_user_stats (st : AdminState) : UserStats :=
  let db := am_users st in
  let st_is s u := String.eqb (UserStatus_value (status u)) (UserStatus_value s) in
  let tier_is t u := String.eqb (UserTier_value (tier u)) (UserTier_value t) in
  mkUStats (count_documents (fun _ => true) db)
           (count_documents (st_is ACTIVE) db)
           (count_documents (st_is INACTIVE) db)
           (count_documents (st_is BLOCKED) db)
           (count_documents (tier_is BASIC) db)
           (count_documents (tier_is PREMIUM) db)
           (count_documents (tier_is VIP) db).

End Admin.

(* ------------------------------------------------------------------ *)
(** ** [gold_price.py]: the gold price manager *)

Module GoldPriceMgr.

Local Open Scope Q_scope.

(** A Python [float]: a finite value, [nan] or an infinity. *)
Inductive PyFloat := FNum (q : Q) | FNaN | FInf (positive : bool).

(** [x != x] *)
Definition is_nan (x : PyFloat) : bool := match x with FNaN => true | _ => false end.

(** [x <= 0] *)
Definition le_zero (x : PyFloat) : bool :=
  match x with
  | FNum q => Qle_bool q 0
  | FNaN => false
  | FInf pos => negb pos
  end.

(** [1000 <= x <= 5000] *)
Definition in_gold_range (x : PyFloat) : bool :=
  match x with
  | FNum q => Qle_bool 1000 q && Qle_bool q 5000
  | _ => false
  end.

(** [GoldPrice]; [currency], [unit] and [id] are constants of no use here. *)
Record GoldPrice := mkPrice {
  price_usd : option PyFloat;
  price_change : option Q;
  price_change_pct : option Q;
  ask : option Q;
  bid : option Q;
  high_24h : option Q;
  low_24h : option Q;
  source : string;
  timestamp : Q
}.

Definition with_source (p : GoldPrice) (s : string) : GoldPrice :=
  mkPrice (price_usd p) (price_change p) (price_change_pct p) (ask p) (bid p)
          (high_24h p) (low_24h p) s (timestamp p).

Definition is_none {A} (o : option A) : bool := match o with None => true | _ => false end.

(** [GoldPriceManager._validate_price_data] *)
Definition _validate_price_data (p : GoldPrice) : bool :=
  match price_usd p with
  | None => false
  | Some x =>
      if is_nan x || le_zero x then false
      else if negb (in_gold_range x) then false
      else if is_none (price_change p) || is_none (price_change_pct p)
              || is_none (ask p) || is_none (bid p) then false
      else true
  end.

Local Set Warnings "-register-all".

(** A decoded JSON document ([json.loads]). *)
Inductive json :=
  | JNull
  | JBool (b : bool)
  | JNum (q : Q)
  | JStr (s : string)
  | JArr (l : list json)
  | JObj (kv : list (string * json)).

(** [dict.get(k)]: the last binding of a key wins in [json.loads]. *)
Definition jget (k : string) (kv : list (string * json)) : option json :=
  match find (fun p => String.eqb (fst p) k) (rev kv) with
  | Some (_, v) => Some v
  | None => None
  end.

(** Python truthiness of a value read with [dict.get]. *)
Definition truthy (v : option json) : bool :=
  match v with
  | None | Some JNull | Some (JBool false) => false
  | Some (JNum q) => negb (Qeq_bool q 0)
  | Some (JStr s) => negb (String.eqb s "")
  | Some (JArr l) => negb (Nat.eqb (List.length l) 0)
  | Some (JObj kv) => negb (Nat.eqb (List.length kv) 0)
  | Some (JBool true) => true
  end.

(** [GoldPriceManager._parse_api_ninjas_response]; [None] stands for the
    exception it raises ([GoldAPIError], [TypeError] on a comparison of a
    non-number with [0], [AttributeError] when the body is not an object).
    [now] is [datetime.utcnow()]. *)
Definition _parse_api_ninjas_response (now : Q) (data : json) : option GoldPrice :=
  match data with
  | JObj kv =>
      let price := jget "price" kv in
      let ts := jget "timestamp" kv in
      (* [if not price or price <= 0: raise]; [float(price)] *)
      let price_float :=
        if negb (truthy price) then None
        else match price with
             | Some (JNum q) => if Qle_bool q 0 then None else Some q
             | Some (JBool true) => Some 1
             | _ => None
             end in
      (* [datetime.fromtimestamp(timestamp) if timestamp else utcnow()] *)
      let dt :=
        if negb (truthy ts) then Some now
        else match ts with
             | Some (JNum t) => Some t
             | Some (JBool true) => Some 1
             | _ => None
             end in
      match price_float, dt with
      | Some p, Some d =>
          Some (mkPrice (Some (FNum p)) (Some (25 # 2)) (Some (38 # 100))
                        (Some (p + 2)) (Some (p - 2)) (Some (p + 15)) (Some (p - 15))
                        "API Ninjas" d)
      | _, _ => None
      end
  | _ => None
  end.

(** The outcome of one [session.get] on a provider: a timeout, a client
    error, or a response with its status and its body ([None] when the
    body is not JSON). *)
Inductive NetResult :=
  | NetTimeout
  | NetError
  | NetResponse (status : Z) (body : option json).

(** A provider entry of [self.apis] (headers and description are not
    read by the operations below). *)
Record ApiConfig := mkApi { url : string; priority : Z; active : bool }.

Record GoldCache := mkCache {
  cache_price : option GoldPrice;
  cache_timestamp : Q;
  cache_duration : Q
}.

Record Manager := mkManager {
  active_apis : list (string * ApiConfig);
  gold_cache : GoldCache
}.

(** The source marker written by both fallbacks of [get_current_price]. *)
Definition fallback_source : string := "❌ تعذر جلب السعر الآن، سيتم استخدام آخر سعر محفوظ".

(** The placeholder quote of the final fallback, at time [now]. *)
Definition demo_price (now : Q) : GoldPrice :=
  mkPrice (Some (FNum (332045 # 100))) (Some (1282 # 100)) (Some (39 # 100))
          (Some (332200 # 100)) (Some (331890 # 100)) (Some (333122 # 100))
          (Some (330518 # 100)) fallback_source now.

(** The sort by priority of [__init__] ([sorted] is stable). *)
Fixpoint insert_by_priority (x : string * ApiConfig) (l : list (string * ApiConfig))
  : list (string * ApiConfig) :=
  match l with
  | [] => [x]
  | y :: r =>
      if Z.ltb (priority (snd x)) (priority (snd y)) then x :: y :: r
      else y :: insert_by_priority x r
  end.

Definition sort_by_priority (l : list (string * ApiConfig)) : list (string * ApiConfig) :=
  fold_left (fun acc x => insert_by_priority x acc) l [].

(** [GoldPriceManager.__init__] with the provider table [apis]; [None] is
    the [ValueError] raised when no provider is active. *)
Definition init (apis : list (string * ApiConfig)) : option Manager :=
  let sorted := sort_by_priority apis in
  match filter (fun a => active (snd a)) sorted with
  | [] => None
  | act => Some (mkManager act (mkCache None 0 (15 * 60)))
  end.

(** The provider table hard-coded in [__init__]. *)
Definition default_apis : list (string * ApiConfig) :=
  [("api_ninjas", mkApi "https://api.api-ninjas.com/v1/goldprice" 1 true);
   ("metals_api", mkApi "https://metals-api.com/api/latest?access_key=demo&base=USD&symbols=XAU" 2 true);
   ("metalpriceapi", mkApi "https://api.metalpriceapi.com/v1/latest?api_key=80a4bf4c14dc0060fbf7a4548d1e1825&base=USD&currencies=XAU" 3 true);
   ("yahoo_finance", mkApi "https://query1.finance.yahoo.com/v7/finance/quote?symbols=GC%3DF" 4 true)].




Section Fetch.

(** The parsers of the providers other than API Ninjas
    ([_parse_metals_api_response], [_parse_metalpriceapi_response],
    [_parse_yahoo_finance_response], the legacy ones, and the
    [Unknown API] error), by provider name; the properties below hold
    whatever they return. *)
Variable parse_other : string -> Q -> json -> option GoldPrice.

(** [GoldPriceManager._fetch_from_api]: every failure is raised as a
    [GoldAPIError], here [None]. *)
Definition _fetch_from_api (now : Q) (api_name : string) (r : NetResult)
  : option GoldPrice :=
  match r with
  | NetTimeout | NetError => None
  | NetResponse st body =>
      if Z.eqb st 401 then None
      else if Z.eqb st 429 then None
      else if Z.eqb st 403 then None
      else if Z.eqb st 404 then None
      else if negb (Z.eqb st 200) then None
      else match body with
           | None => None
           | Some data =>
               if String.eqb api_name "api_ninjas"
               then _parse_api_ninjas_response now data
               else parse_other api_name now data
           end
  end.

(** The provider loop of [get_current_price]: the first provider whose
    quote passes [_validate_price_data]. *)
Fixpoint try_apis (net : string -> NetResult) (now : Q)
    (apis : list (string * ApiConfig)) : option GoldPrice :=
  match apis with
  | [] => None
  | (name, _) :: rest =>
      match _fetch_from_api now name (net name) with
      | Some p => if _validate_price_data p then Some p else try_apis net now rest
      | None => try_apis net now rest
      end
  end.

(** [GoldPriceManager.get_current_price]; [now] is [time.time()] (also
    used for [datetime.utcnow()]), [net] gives the response of each
    provider during this call.  The stale branch assigns [source] on the
    object held by the cache, so the cache entry is changed too. *)
Definition get_current_price (net : string -> NetResult) (now : Q)
    (use_cache : bool) (m : Manager) : option GoldPrice * Manager :=
  let c := gold_cache m in
  let cached :=
    if use_cache then
      match cache_price c with
      | Some p => if Qle_bool (cache_duration c) (now - cache_timestamp c)
                  then None else Some p
      | None => None
      end
    else None in
  match cached with
  | Some p => (Some p, m)
  | None =>
      match try_apis net now (active_apis m) with
      | Some p => (Some p, mkManager (active_apis m) (mkCache (Some p) now (cache_duration c)))
      | None =>
          match cache_price c with
          | Some cp =>
              let cp' := with_source cp fallback_source in
              (Some cp', mkManager (active_apis m)
                                   (mkCache (Some cp') (cache_timestamp c) (cache_duration c)))
          | None =>
              let d := demo_price now in
              (Some d, mkManager (active_apis m) (mkCache (Some d) now (cache_duration c)))
          end
      end
  end.

(** [GoldPriceManager.test_apis]: for each active provider in order,
    whether [_fetch_from_api] gave a quote (an exception counts as a
    failure); the provider names are distinct, so the dictionary is the
    list of pairs. *)
Definition test_apis (net : string -> NetResult) (now : Q) (m : Manager)
  : list (string * bool) :=
  map (fun a => (fst a, match _fetch_from_api now (fst a) (net (fst a)) with
                        | Some _ => true
                        | None => false
                        end)) (active_apis m).

End Fetch.

End GoldPriceMgr.

(* ------------------------------------------------------------------ *)
(** ** [backend/server.py]: the [POST /analyze] handler *)

Module Server.

Import Models Auth Admin GoldPriceMgr.

(** [AnalysisRequest]: the body carries no user id. *)
Record AnalysisRequest := mkReq {
  analysis_type : string;
  user_question : option string;
  additional_context : option string
}.

(** [AnalysisResponse]; [gold_price] carries the fields of the quote the
    handler copies ([price_usd], [price_change], [price_change_pct],
    [source]). *)
Record AnalysisResponse := mkAResp {
  a_success : bool;
  a_analysis : option string;
  a_gold_price : option GoldPrice;
  a_error : option string;
  a_processing_time : option Q
}.

(** The state the handler reaches: the price manager and the
    collections of the admin manager (its [users] collection is the one
    the auth manager reads). *)
Record ServerState := mkServer {
  price_manager : Manager;
  admin_manager : AdminState
}.

Definition msg_bad_type : string := "نوع التحليل غير صحيح. الأنواع المتاحة: quick, detailed, chart, news, forecast".
Definition msg_analysis_failed : string := "فشل في إجراء التحليل. يرجى المحاولة مرة أخرى.".

Definition price_as_float (p : option GoldPrice) : option Q :=
  match p with
  | Some gp => match price_usd gp with Some (FNum q) => Some q | _ => None end
  | None => None
  end.

(** The [id] fields of the list served by [get_analysis_types]
    ([GET /analysis-types]). *)
Definition analysis_type_ids : list string :=
  ["quick"; "detailed"; "chart"; "news"; "forecast"].

Section Handler.

Variable parse_other : string -> Q -> json -> option GoldPrice.

(** [ai_manager.generate_analysis]: the content of the analysis (cached
    or produced by the LLM) for the kind, quote and context, or [None]. *)
Variable generate_analysis : AnalysisType -> option GoldPrice -> string -> option string.

(** [analyze_gold]; [net] answers the price providers, [processing_time]
    is the measured duration of the call. *)
Definition analyze_gold (clk : Clock) (net : string -> NetResult)
    (processing_time : Q) (st : ServerState) (request : AnalysisRequest)
  : AnalysisResponse * ServerState :=
  match AnalysisType_of_string (analysis_type request) with
  | None => (mkAResp false None None (Some msg_bad_type) None, st)
  | Some t =>
      let (gold_price, pm) :=
        get_current_price parse_other net (now clk) true (price_manager st) in
      let ctx := match additional_context request with
                 | Some s => if String.eqb s "" then
                               match user_question request with
                               | Some q => q | None => "" end
                             else s
                 | None => match user_question request with
                           | Some q => q | None => "" end
                 end in
      let analysis := generate_analysis t gold_price ctx in
      let ok := match analysis with Some _ => true | None => false end in
      let am := log_analysis clk (admin_manager st) 1 t ok (Some processing_time)
                  (if ok then None else Some "Analysis generation failed")
                  (price_as_float gold_price) BASIC in
      let st' := mkServer pm am in
      match analysis with
      | None => (mkAResp false None None (Some msg_analysis_failed) None, st')
      | Some content =>
          (mkAResp true (Some content) gold_price None (Some processing_time), st')
      end
  end.

End Handler.

End Server.

(* ------------------------------------------------------------------ *)
(** ** Call sequences and fixtures used by the properties *)

Module Scenarios.

Import Models Auth.
Local Open Scope Z_scope.

(** [n] successive calls of [User.increment_daily_analysis] on one
    [User] object within one calendar day; the number of calls that
    returned [True] is returned with the object. *)
Fixpoint increment_many (now : Q) (today : string) (u : User) (n : nat) : nat * User :=
  match n with
  | O => (O, u)
  | S m =>
      let (ok, u1) := increment_daily_analysis now today u in
      let (k, u2) := increment_many now today u1 m in
      ((if ok then S k else k), u2)
  end.

(** The counter as the quota methods read it on [today]: a counter dated
    another day counts as zero. *)
Definition effective_count (today : string) (u : User) : Z :=
  if Py.opt_str_neq (daily_analyses_date u) today then 0 else daily_analyses_count u.

Definition clock0 : Clock := mkClock 0%Q "2026-10-15".

(** A fresh BASIC account, as [register_user] stores it. *)
Definition basic_user : User :=
  mkUser 1000 "ahmed@test.com" "" BASIC None None 0 0 None ACTIVE 0%Q None.

(** A BASIC account whose analysis of the day is used up. *)
Definition exhausted_user (uid : Z) : User :=
  mkUser uid "ahmed@test.com" "" BASIC None None 1 1 (Some "2026-10-15")
    ACTIVE 0%Q None.

(** The audit recorder fed with [items] (kind, success, processing time)
    for the user [uid], in order, through [log_analysis]. *)
Definition log_many (clk : Clock) (st : Admin.AdminState) (uid : Z) (tier : UserTier)
    (items : list (AnalysisType * bool * Q)) : Admin.AdminState :=
  fold_left (fun st it =>
               let '(t, ok, pt) := it in
               Admin.log_analysis clk st uid t ok (Some pt) None None tier) items st.

(** [t1 + ... + tN] *)
Definition total_time (items : list (AnalysisType * bool * Q)) : Q :=
  fold_left (fun acc it => let '(_, _, pt) := it in (acc + pt)%Q) items 0%Q.

(** Strings of hexadecimal digits, as [hexdigest] and [token_hex] write. *)
Fixpoint all_hex (s : string) : Prop :=
  match s with
  | EmptyString => True
  | String c r => In c Sha256.hexchars /\ all_hex r
  end.

(** The bytes of a salt ([secrets.token_hex(16)]). *)
Definition rnd0 : list Z := repeat 0 16.

(** An empty users collection, next id 1000. *)
Definition auth0 : AuthState := mkAuth [] 1000.

(** Every document carries the [_id] the server adds on insert, as in a
    collection written by [insert_one] only. *)
Definition all_stored (db : list UserDoc) : bool :=
  forallb (fun d => match _id d with Some _ => true | None => false end) db.

(** Strings without [:]. *)
Definition no_colon (s : string) : Prop := ~ In ":"%char (list_ascii_of_string s).

(** The state after one registration on [auth0]. *)
Definition reg1 : AuthState :=
  snd (register_user clock0 rnd0 auth0 "ahmed@test.com" "Pw123456").

(** The admin collections holding one account document without [_id]. *)
Definition admin_one (u : User) : Admin.AdminState := Admin.mkAdmin [mkDoc None u] [] [].

End Scenarios.

Module PriceScenarios.

Import GoldPriceMgr.
Local Open Scope Q_scope.

(** [1000 <= price.price_usd <= 5000] *)
Definition price_in_range (p : GoldPrice) : bool :=
  match price_usd p with Some x => in_gold_range x | None => false end.

(** A series of calls [get_current_price(use_cache)] on one manager, each
    at its time [now] and with the provider responses [net] of its time. *)
Fixpoint run_calls (parse_other : string -> Q -> json -> option GoldPrice)
    (calls : list ((string -> NetResult) * Q * bool)) (m : Manager)
  : list (option GoldPrice) * Manager :=
  match calls with
  | [] => ([], m)
  | (net, now, use_cache) :: rest =>
      let (r, m1) := get_current_price parse_other net now use_cache m in
      let (rs, m2) := run_calls parse_other rest m1 in
      (r :: rs, m2)
  end.

(** Provider responses where every provider fails. *)
Definition all_down : string -> NetResult := fun _ => NetTimeout.

(** Two providers: [metals_api] first, [api_ninjas] second. *)
Definition two_apis : list (string * ApiConfig) :=
  [("metals_api", mkApi "https://metals-api.com/api/latest" 1 true);
   ("api_ninjas", mkApi "https://api.api-ninjas.com/v1/goldprice" 2 true)].

(** The first answers HTTP 429, the second [{"price": 3310.06}]. *)
Definition net_429_then_price : string -> NetResult :=
  fun name =>
    if String.eqb name "metals_api" then NetResponse 429 None
    else NetResponse 200 (Some (JObj [("price", JNum (331006 # 100))])).

(** A manager whose cache holds an expired quote of API Ninjas. *)
Definition stale_quote : GoldPrice :=
  mkPrice (Some (FNum (331006 # 100))) (Some (25 # 2)) (Some (38 # 100))
          (Some (331206 # 100)) (Some (330806 # 100)) (Some (332506 # 100))
          (Some (329506 # 100)) "API Ninjas" 0.

Definition stale_manager : Manager :=
  mkManager two_apis (mkCache (Some stale_quote) 0 (15 * 60)).

(** Providers in ascending order of [priority]. *)
Definition prio_le (a b : string * ApiConfig) : Prop :=
  (priority (snd a) <= priority (snd b))%Z.

(** Every quote held by the cache has its price in [1000, 5000] and either
    passed [_validate_price_data] or carries the fallback marker. *)
Definition cache_inv (m : Manager) : Prop :=
  forall p, cache_price (gold_cache m) = Some p ->
    price_in_range p = true /\
    (_validate_price_data p = true \/ source p = fallback_source).

(** A manager over [two_apis] with an empty cache. *)
Definition empty_manager : Manager :=
  mkManager two_apis (mkCache None 0 (15 * 60)).

(** An analysis service that always answers. *)
Definition gen_ok : Models.AnalysisType -> option GoldPrice -> string -> option string :=
  fun _ _ _ => Some "analysis".

End PriceScenarios.

(* ================================================================== *)
(** * Properties *)

(* ------------------------------------------------------------------ *)
(** ** Daily quota bookkeeping *)

Module QuotaProofs.

Import Models Auth Scenarios.
Local Open Scope Z_scope.

Lemma find_by_id_some uid db d :
  find_by_id uid db = Some d -> user_id (doc d) = uid.
Proof.
  unfold find_by_id. intros H. apply find_some in H. destruct H as [_ H].
  now apply Z.eqb_eq.
Qed.

Lemma find_update_by_id uid f db :
  (forall v, user_id v = uid -> user_id (f v) = uid) ->
  find_by_id uid (update_by_id uid f db)
  = option_map (fun d => mkDoc (_id d) (f (doc d))) (find_by_id uid db).
Proof.
  intros Hf. induction db as [|v r IH]; simpl; [reflexivity|].
  unfold find_by_id in *. simpl.
  destruct (Z.eqb (user_id (doc v)) uid) eqn:E; simpl.
  - apply Z.eqb_eq in E. rewrite (Hf (doc v) E), Z.eqb_refl. reflexivity.
  - rewrite E. exact IH.
Qed.

Lemma opt_str_neq_same (t : string) : Py.opt_str_neq (Some t) t = false.
Proof. simpl. rewrite String.eqb_refl. reflexivity. Qed.

Lemma increment_true now today u u' :
  increment_daily_analysis now today u = (true, u') ->
  user_id u' = user_id u /\ tier u' = tier u /\
  daily_analyses_date u' = Some today /\
  effective_count today u' = effective_count today u + 1 /\
  (tier u <> VIP -> daily_analyses_count u' <= get_daily_limit u).
Proof.
  destruct u as [id em ph t ss se tot cnt dt stt upd ls].
  unfold increment_daily_analysis, can_analyze_today,
    get_remaining_analyses_today, effective_count, get_daily_limit; cbn -[Z.sub Z.add Z.max].
  destruct (Py.opt_str_neq dt today) eqn:Ed; destruct t;
  unfold set_daily, set_counts; cbn -[Z.sub Z.add Z.max]; rewrite ?String.eqb_refl, ?Ed; cbn -[Z.sub Z.add Z.max];
  try (destruct (Z.max 0 _ =? 0) eqn:Em; cbn -[Z.sub Z.add Z.max]; [discriminate|]);
  intros H; inversion H; subst; clear H; cbn -[Z.sub Z.add Z.max];
  rewrite ?String.eqb_refl, ?Ed; cbn -[Z.sub Z.add Z.max].
  all: repeat split; try reflexivity;
    try (intros Hv; exfalso; apply Hv; reflexivity).
  all: try (destruct dt as [d|]; cbn -[Z.sub Z.add Z.max] in Ed; [|discriminate];
            destruct (String.eqb_spec d today); cbn -[Z.sub Z.add Z.max] in Ed; congruence).
  all: intros _; try (apply Z.eqb_neq in Em); lia.
Qed.

Lemma increment_vip now today u :
  tier u = VIP -> fst (increment_daily_analysis now today u) = true.
Proof.
  destruct u as [id em ph t ss se tot cnt dt stt upd ls]; simpl; intros ->.
  unfold increment_daily_analysis, can_analyze_today, get_remaining_analyses_today; simpl.
  destruct (Py.opt_str_neq dt today); reflexivity.
Qed.

(** A refused call leaves the object as it was: the counter it read was
    dated [today], so the reset did not happen. *)
Lemma increment_false now today u u' :
  increment_daily_analysis now today u = (false, u') -> u' = u /\ tier u <> VIP.
Proof.
  destruct u as [id em ph t ss se tot cnt dt stt upd ls].
  unfold increment_daily_analysis, can_analyze_today,
    get_remaining_analyses_today, get_daily_limit; cbn -[Z.sub Z.add Z.max].
  destruct (Py.opt_str_neq dt today) eqn:Ed; destruct t; cbn -[Z.sub Z.add Z.max];
  try (destruct (Z.max 0 _ =? 0) eqn:Em; cbn -[Z.sub Z.add Z.max]);
  intros H; inversion H; subst; try discriminate.
  all: split; [reflexivity|discriminate].
Qed.

Lemma increment_many_spec now today n : forall u,
  let (k, u') := increment_many now today u n in
  tier u' = tier u /\
  effective_count today u' = effective_count today u + Z.of_nat k /\
  ((k = O /\ u' = u) \/ (daily_analyses_date u' = Some today /\
             (tier u <> VIP -> daily_analyses_count u' <= get_daily_limit u))) /\
  (tier u = VIP -> k = n).
Proof.
  induction n as [|n IH]; intros u; simpl.
  - repeat split; auto. lia.
  - destruct (increment_daily_analysis now today u) as [ok u1] eqn:Ei.
    specialize (IH u1). destruct (increment_many now today u1 n) as [k u2].
    destruct IH as (Ht2 & He2 & Hk2 & Hv2). destruct ok.
    + destruct (increment_true _ _ _ _ Ei) as (_ & Ht1 & Hd1 & He1 & Hc1).
      split; [congruence|]. split; [lia|]. split.
      * right. destruct Hk2 as [[-> ->]|[Hd2 Hc2]].
        -- split; assumption.
        -- split; [exact Hd2|]. intros Hv. rewrite <- Ht1 in Hv.
           specialize (Hc2 Hv). unfold get_daily_limit in *. rewrite Ht1 in Hc2. exact Hc2.
      * intros Hv. f_equal. apply Hv2. congruence.
    + destruct (increment_false _ _ _ _ Ei) as [-> Hv].
      repeat split; auto. intros Hv'. contradiction.
Qed.

(** C2: on one calendar day, consecutive calls of
    [increment_daily_analysis] on a user whose counter is non-negative
    succeed at most [get_daily_limit] times (1 for BASIC, 5 for PREMIUM),
    and after a success the counter never exceeds that limit; a VIP user
    (limit -1, unlimited) is never refused. *)
Theorem quota_daily_ceiling now today u n :
  0 <= effective_count today u ->
  let (k, u') := increment_many now today u n in
  tier u' = tier u /\
  (tier u <> VIP ->
     Z.of_nat k <= get_daily_limit u /\
     ((0 < k)%nat -> daily_analyses_count u' <= get_daily_limit u')) /\
  (tier u = VIP -> k = n /\ get_daily_limit u = -1).
Proof.
  intros H0. pose proof (increment_many_spec now today n u) as Hs.
  destruct (increment_many now today u n) as [k u'].
  destruct Hs as (Ht & He & Hk & Hv). split; [exact Ht|]. split.
  - intros Hnv. split.
    + destruct Hk as [[-> _]|[Hd Hc]].
      * unfold get_daily_limit. destruct (tier u); simpl; try lia. contradiction.
      * specialize (Hc Hnv). unfold effective_count in He, H0. rewrite Hd, opt_str_neq_same in He. lia.
    + intros Hpos. destruct Hk as [[-> _]|[Hd Hc]]; [lia|].
      replace (get_daily_limit u') with (get_daily_limit u) by (unfold get_daily_limit; now rewrite Ht).
      exact (Hc Hnv).
  - intros Hv'. split; [exact (Hv Hv')|]. unfold get_daily_limit. rewrite Hv'. reflexivity.
Qed.

Lemma quota_daily_ceiling_witness :
  0 <= effective_count (today clock0) basic_user /\
  (let (k, u') := increment_many (now clock0) (today clock0) basic_user 3 in
   tier u' = tier basic_user /\
   (tier basic_user <> VIP ->
      Z.of_nat k <= get_daily_limit basic_user /\
      ((0 < k)%nat -> daily_analyses_count u' <= get_daily_limit u')) /\
   (tier basic_user = VIP -> k = 3%nat /\ get_daily_limit basic_user = -1)).
Proof.
  split; [vm_compute; discriminate|].
  apply quota_daily_ceiling. vm_compute; discriminate.
Defined.

End QuotaProofs.

(* ------------------------------------------------------------------ *)
(** ** Gold price aggregation *)

Module PriceProofs.

Import GoldPriceMgr PriceScenarios.
Local Open Scope Q_scope.

Lemma insert_hdrel a x l :
  HdRel prio_le a l -> prio_le a x -> HdRel prio_le a (insert_by_priority x l).
Proof.
  intros H Hax. destruct l as [|y r]; simpl; [constructor; exact Hax|].
  destruct (Z.ltb (priority (snd x)) (priority (snd y))); constructor;
    [exact Hax|inversion H; assumption].
Qed.

Lemma insert_sorted x l : Sorted prio_le l -> Sorted prio_le (insert_by_priority x l).
Proof.
  induction l as [|y r IH]; intros H; simpl; [repeat constructor|].
  destruct (Z.ltb_spec (priority (snd x)) (priority (snd y))) as [Hlt|Hge].
  - constructor; [exact H|constructor; unfold prio_le; lia].
  - inversion H as [|? ? Hr Hh]; subst. constructor; [exact (IH Hr)|].
    apply insert_hdrel; [exact Hh|unfold prio_le; lia].
Qed.

Lemma insert_perm x l : Permutation (insert_by_priority x l) (x :: l).
Proof.
  induction l as [|y r IH]; simpl; [reflexivity|].
  destruct (Z.ltb _ _); [reflexivity|].
  rewrite IH. apply perm_swap.
Qed.

Lemma sort_sorted_aux l : forall acc, Sorted prio_le acc ->
  Sorted prio_le (fold_left (fun acc x => insert_by_priority x acc) l acc).
Proof.
  induction l as [|x r IH]; intros acc H; simpl; [exact H|].
  apply IH, insert_sorted, H.
Qed.

Lemma sort_perm_aux l : forall acc,
  Permutation (fold_left (fun acc x => insert_by_priority x acc) l acc) (l ++ acc).
Proof.
  induction l as [|x r IH]; intros acc; simpl; [reflexivity|].
  rewrite IH, insert_perm. symmetry. apply Permutation_middle.
Qed.

Lemma filter_perm (f : string * ApiConfig -> bool) l l' :
  Permutation l l' -> Permutation (filter f l) (filter f l').
Proof.
  induction 1 as [|x l l' _ IH|x y l|l l' l'' _ IH1 _ IH2]; simpl.
  - constructor.
  - destruct (f x); [constructor|]; exact IH.
  - destruct (f x), (f y); try constructor; reflexivity.
  - etransitivity; eassumption.
Qed.

Lemma filter_strongly_sorted (f : string * ApiConfig -> bool) l :
  StronglySorted prio_le l -> StronglySorted prio_le (filter f l).
Proof.
  induction 1 as [|a l _ IH Hall]; simpl; [constructor|].
  destruct (f a); [|exact IH].
  constructor; [exact IH|].
  apply Forall_forall. intros y Hy. apply filter_In in Hy.
  rewrite Forall_forall in Hall. apply Hall, Hy.
Qed.

Lemma init_active apis m :
  init apis = Some m ->
  active_apis m = filter (fun a => active (snd a)) (sort_by_priority apis) /\
  gold_cache m = mkCache None 0 (15 * 60).
Proof.
  unfold init. destruct (filter _ _) eqn:E; [discriminate|].
  intros H; injection H as <-. split; reflexivity.
Qed.

Lemma length_append_str (s t : string) :
  String.length (s ++ t) = (String.length s + String.length t)%nat.
Proof. induction s; simpl; congruence. Qed.

Lemma substring_whole (s : string) : substring 0 (String.length s) s = s.
Proof. induction s; simpl; [reflexivity|]. rewrite IHs. reflexivity. Qed.

Lemma substring_after_prefix (pre s : string) :
  substring (String.length pre) (String.length s) (pre ++ s) = s.
Proof. induction pre; simpl; [apply substring_whole|exact IHpre]. Qed.

Lemma validate_in_range p :
  _validate_price_data p = true -> price_in_range p = true.
Proof.
  unfold _validate_price_data, price_in_range.
  destruct (price_usd p) as [x|]; [|discriminate].
  destruct (is_nan x || le_zero x); [discriminate|].
  destruct (in_gold_range x); simpl; [reflexivity|discriminate].
Qed.

Lemma demo_valid now : _validate_price_data (demo_price now) = true.
Proof. reflexivity. Qed.

Lemma with_source_range p s : price_in_range (with_source p s) = price_in_range p.
Proof. reflexivity. Qed.

Lemma init_cache apis m :
  init apis = Some m -> cache_price (gold_cache m) = None.
Proof.
  unfold init. destruct (filter _ _); [discriminate|].
  intros H; injection H as <-; reflexivity.
Qed.
Section Parsers.

(** The parsers of the providers other than API Ninjas: any. *)
Variable po : string -> Q -> json -> option GoldPrice.

Lemma try_apis_valid net now l p :
  try_apis po net now l = Some p -> _validate_price_data p = true.
Proof.
  induction l as [|[name cfg] r IH]; simpl; [discriminate|].
  destruct (_fetch_from_api po now name (net name)) as [q|]; [|exact IH].
  destruct (_validate_price_data q) eqn:Ev; [|exact IH].
  intros H; injection H as <-; exact Ev.
Qed.

Lemma gcp_inv net now uc m :
  cache_inv m ->
  let (r, m') := get_current_price po net now uc m in
  (exists p, r = Some p /\ price_in_range p = true /\
     (_validate_price_data p = true \/ source p = fallback_source)) /\
  cache_inv m'.
Proof.
  intros Hi. unfold get_current_price.
  destruct m as [apis [cp ts d]]; simpl in *.
  assert (Hfb : forall q, try_apis po net now apis = Some q ->
    (exists p, Some q = Some p /\ price_in_range p = true /\
      (_validate_price_data p = true \/ source p = fallback_source)) /\
    cache_inv (mkManager apis (mkCache (Some q) now d))).
  { intros q Hq. pose proof (try_apis_valid _ _ _ _ Hq) as Hv.
    split; [exists q; split; [reflexivity|split; [apply validate_in_range; exact Hv|left; exact Hv]]|].
    intros p' Hp'; simpl in Hp'; injection Hp' as <-.
    split; [apply validate_in_range; exact Hv|left; exact Hv]. }
  assert (Hrest :
    let (r, m') :=
      match try_apis po net now apis with
      | Some p => (Some p, mkManager apis (mkCache (Some p) now d))
      | None =>
          match cp with
          | Some cp0 =>
              (Some (with_source cp0 fallback_source),
               mkManager apis (mkCache (Some (with_source cp0 fallback_source)) ts d))
          | None => (Some (demo_price now), mkManager apis (mkCache (Some (demo_price now)) now d))
          end
      end in
    (exists p, r = Some p /\ price_in_range p = true /\
       (_validate_price_data p = true \/ source p = fallback_source)) /\ cache_inv m').
  { destruct (try_apis po net now apis) as [q|] eqn:Eq; [exact (Hfb q eq_refl)|].
    destruct cp as [cp0|].
    - destruct (Hi cp0 eq_refl) as [Hr _].
      assert (Hg : price_in_range (with_source cp0 fallback_source) = true /\
                   (_validate_price_data (with_source cp0 fallback_source) = true \/
                    source (with_source cp0 fallback_source) = fallback_source))
        by (split; [rewrite with_source_range; exact Hr | right; reflexivity]).
      split; [eexists; split; [reflexivity|exact Hg]|].
      intros p' Hp'; simpl in Hp'; injection Hp' as <-; exact Hg.
    - assert (Hg : price_in_range (demo_price now) = true /\
                   (_validate_price_data (demo_price now) = true \/
                    source (demo_price now) = fallback_source))
        by (split; [reflexivity | left; reflexivity]).
      split; [eexists; split; [reflexivity|exact Hg]|].
      intros p' Hp'; simpl in Hp'; injection Hp' as <-; exact Hg. }
  destruct uc; [|exact Hrest].
  destruct cp as [cp0|]; [|exact Hrest].
  destruct (Qle_bool d (now - ts)); [exact Hrest|].
  destruct (Hi cp0 eq_refl) as [Hr Hs].
  split; [exists cp0; split; [reflexivity|split; assumption]|exact Hi].
Qed.

Lemma run_calls_inv calls : forall m,
  cache_inv m ->
  Forall (fun r => exists p, r = Some p /\ price_in_range p = true /\
            (_validate_price_data p = true \/ source p = fallback_source))
         (fst (run_calls po calls m)).
Proof.
  induction calls as [|[[net now] uc] rest IH]; intros m Hi; simpl; [constructor|].
  pose proof (gcp_inv net now uc m Hi) as Hg.
  destruct (get_current_price po net now uc m) as [r m1].
  destruct Hg as [Hr Hi1].
  pose proof (IH m1 Hi1) as Hf.
  destruct (run_calls po rest m1) as [rs m2]. simpl in *.
  constructor; assumption.
Qed.

Lemma gcp_cache_hit net now m p :
  cache_price (gold_cache m) = Some p ->
  now - cache_timestamp (gold_cache m) < cache_duration (gold_cache m) ->
  get_current_price po net now true m = (Some p, m).
Proof.
  intros Hc Hlt. unfold get_current_price. rewrite Hc.
  destruct (Qle_bool (cache_duration (gold_cache m)) (now - cache_timestamp (gold_cache m))) eqn:E;
    [|reflexivity].
  apply Qle_bool_iff in E. exfalso. apply (Qlt_not_le _ _ Hlt E).
Qed.

Lemma run_calls_hit calls : forall m p,
  cache_price (gold_cache m) = Some p ->
  Forall (fun c : (string -> NetResult) * Q * bool =>
            snd (fst c) - cache_timestamp (gold_cache m) < cache_duration (gold_cache m) /\
            snd c = true) calls ->
  run_calls po calls m = (map (fun _ => Some p) calls, m).
Proof.
  induction calls as [|[[net now] uc] rest IH]; intros m p Hc Hf; simpl; [reflexivity|].
  inversion Hf as [|c l [Hlt Huc] Hr]; subst; simpl in Hlt, Huc; subst uc.
  rewrite (gcp_cache_hit net now m p Hc Hlt).
  rewrite (IH m p Hc Hr). reflexivity.
Qed.

Lemma try_apis_first net now pre name cfg rest p :
  Forall (fun a => match _fetch_from_api po now (fst a) (net (fst a)) with
                   | Some q => _validate_price_data q = false
                   | None => True end) pre ->
  _fetch_from_api po now name (net name) = Some p ->
  _validate_price_data p = true ->
  try_apis po net now (app pre ((name, cfg) :: rest)) = Some p.
Proof.
  intros Hpre Hf Hv. induction Hpre as [|[n c] l Hx _ IH]; simpl.
  - rewrite Hf, Hv. reflexivity.
  - simpl in Hx. destruct (_fetch_from_api po now n (net n)) as [q|]; [rewrite Hx|]; exact IH.
Qed.

Lemma fetch_non_200 now name st body :
  st <> 200%Z -> _fetch_from_api po now name (NetResponse st body) = None.
Proof.
  intros Hst. simpl.
  destruct (Z.eqb st 401), (Z.eqb st 429), (Z.eqb st 403), (Z.eqb st 404); try reflexivity.
  apply Z.eqb_neq in Hst. rewrite Hst. reflexivity.
Qed.

(** C5: from a freshly initialised manager, every quote returned by any
    series of [get_current_price] calls has its price in [1000, 5000];
    each one either passed [_validate_price_data] or carries the fallback
    marker; and a quote of the provider loop always passed validation. *)
Theorem price_always_in_range apis m :
  init apis = Some m ->
  (forall calls,
     Forall (fun r => exists p, r = Some p /\ price_in_range p = true /\
               (_validate_price_data p = true \/ source p = fallback_source))
            (fst (run_calls po calls m))) /\
  (forall net now l p, try_apis po net now l = Some p -> _validate_price_data p = true).
Proof.
  intros H. split.
  - intros calls. apply run_calls_inv.
    intros p Hp. rewrite (init_cache _ _ H) in Hp. discriminate.
  - exact (try_apis_valid).
Qed.

(** C6 (as the code does it): when no provider yields a valid quote and
    the cache is not served, both fallbacks return a quote whose [source]
    is the single marker [fallback_source]: the cached quote with its
    [source] replaced (kept in the cache with its old timestamp), or else
    the placeholder [demo_price now], cached at [now]. *)
Theorem all_providers_down_fallback net now uc m :
  try_apis po net now (active_apis m) = None ->
  (uc = false \/ cache_price (gold_cache m) = None \/
   cache_duration (gold_cache m) <= now - cache_timestamp (gold_cache m)) ->
  exists p m',
    get_current_price po net now uc m = (Some p, m') /\
    source p = fallback_source /\
    active_apis m' = active_apis m /\
    cache_price (gold_cache m') = Some p /\
    cache_duration (gold_cache m') = cache_duration (gold_cache m) /\
    match cache_price (gold_cache m) with
    | Some cp => p = with_source cp fallback_source /\
                 cache_timestamp (gold_cache m') = cache_timestamp (gold_cache m)
    | None => p = demo_price now /\ cache_timestamp (gold_cache m') = now
    end.
Proof.
  intros Ht Hmiss. unfold get_current_price.
  assert (Hm : (if uc then match cache_price (gold_cache m) with
                | Some p => if Qle_bool (cache_duration (gold_cache m)) (now - cache_timestamp (gold_cache m))
                            then None else Some p
                | None => None end else None) = @None GoldPrice).
  { destruct Hmiss as [->|[Hc|Hle]]; [reflexivity|rewrite Hc; destruct uc; reflexivity|].
    destruct uc; [|reflexivity]. destruct (cache_price (gold_cache m)); [|reflexivity].
    apply Qle_bool_iff in Hle. rewrite Hle. reflexivity. }
  rewrite Hm, Ht.
  destruct (cache_price (gold_cache m)) as [cp|]; do 2 eexists;
    (split; [reflexivity|]); simpl; repeat split; reflexivity.
Qed.

(** C7: after [__init__] the active providers are those of the table,
    sorted by ascending priority; when the cache is not served, the first
    provider (in that order) whose answer passes validation gives the
    returned quote, which is cached with timestamp [now], every provider
    before it having failed; a status other than 200, or a body that is
    not JSON, makes a provider fail; with [metals_api] answering 429 and
    [api_ninjas] [{"price": 3310.06}], the quote is 3310.06 of API Ninjas. *)
Theorem providers_tried_by_priority apis m :
  init apis = Some m ->
  Sorted prio_le (active_apis m) /\
  Permutation (active_apis m) (filter (fun a => active (snd a)) apis) /\
  (forall net now uc m' pre name cfg rest p,
     active_apis m' = app pre ((name, cfg) :: rest) ->
     (uc = false \/ cache_price (gold_cache m') = None \/
      cache_duration (gold_cache m') <= now - cache_timestamp (gold_cache m')) ->
     Forall (fun a => match _fetch_from_api po now (fst a) (net (fst a)) with
                      | Some q => _validate_price_data q = false
                      | None => True end) pre ->
     _fetch_from_api po now name (net name) = Some p ->
     _validate_price_data p = true ->
     get_current_price po net now uc m' =
       (Some p, mkManager (active_apis m') (mkCache (Some p) now (cache_duration (gold_cache m'))))) /\
  (forall now name st body, st <> 200%Z -> _fetch_from_api po now name (NetResponse st body) = None) /\
  (forall now name, _fetch_from_api po now name (NetResponse 200 None) = None) /\
  (forall now, exists m2 p,
     init two_apis = Some m2 /\
     fst (get_current_price po net_429_then_price now true m2) = Some p /\
     price_usd p = Some (FNum (331006 # 100)) /\ source p = "API Ninjas").
Proof.
  intros Hi. destruct (init_active _ _ Hi) as [Ha _]. rewrite Ha.
  split; [|split; [|split; [|split; [|split]]]].
  - apply StronglySorted_Sorted, filter_strongly_sorted, Sorted_StronglySorted;
      [unfold Relations_1.Transitive, prio_le; intros; lia|].
    apply sort_sorted_aux. constructor.
  - apply filter_perm. unfold sort_by_priority. rewrite sort_perm_aux, app_nil_r. reflexivity.
  - intros net now uc m' pre name cfg rest p Hl Hmiss Hpre Hf Hv.
    unfold get_current_price.
    assert (Hm : (if uc then match cache_price (gold_cache m') with
                  | Some q => if Qle_bool (cache_duration (gold_cache m')) (now - cache_timestamp (gold_cache m'))
                              then None else Some q
                  | None => None end else None) = @None GoldPrice).
    { destruct Hmiss as [->|[Hc|Hle]]; [reflexivity|rewrite Hc; destruct uc; reflexivity|].
      destruct uc; [|reflexivity]. destruct (cache_price (gold_cache m')); [|reflexivity].
      apply Qle_bool_iff in Hle. rewrite Hle. reflexivity. }
    rewrite Hm, Hl, (try_apis_first _ _ _ _ _ _ _ Hpre Hf Hv). reflexivity.
  - exact fetch_non_200.
  - reflexivity.
  - intros now. do 2 eexists. split; [reflexivity|]. split; [vm_compute; reflexivity|].
    split; reflexivity.
Qed.

(** C10: when the cache is empty and every provider fails, the call
    returns the placeholder (price 3320.45) and caches it at [now]; every
    later call with [use_cache = True] less than 15 minutes after [now]
    returns that placeholder and leaves the manager unchanged, whatever
    the providers would answer. *)
Theorem demo_quote_served_from_cache net now uc m :
  cache_price (gold_cache m) = None ->
  cache_duration (gold_cache m) = 15 * 60 ->
  try_apis po net now (active_apis m) = None ->
  let (r, m1) := get_current_price po net now uc m in
  r = Some (demo_price now) /\
  price_usd (demo_price now) = Some (FNum (332045 # 100)) /\
  gold_cache m1 = mkCache (Some (demo_price now)) now (15 * 60) /\
  (forall calls,
     Forall (fun c : (string -> NetResult) * Q * bool =>
               snd (fst c) - now < 15 * 60 /\ snd c = true) calls ->
     run_calls po calls m1 = (map (fun _ => Some (demo_price now)) calls, m1)).
Proof.
  intros Hc Hd Ht. unfold get_current_price.
  assert (Hm : (if uc then match cache_price (gold_cache m) with
                | Some p => if Qle_bool (cache_duration (gold_cache m)) (now - cache_timestamp (gold_cache m))
                            then None else Some p
                | None => None end else None) = @None GoldPrice)
    by (rewrite Hc; destruct uc; reflexivity).
  rewrite Hm, Ht, Hc.
  split; [reflexivity|]. split; [reflexivity|]. split; [simpl; rewrite Hd; reflexivity|].
  intros calls Hf. apply run_calls_hit; [reflexivity|].
  simpl. rewrite Hd. exact Hf.
Qed.

End Parsers.
Lemma price_always_in_range_witness :
  exists m, init default_apis = Some m /\
  (forall calls,
     Forall (fun r => exists p, r = Some p /\ price_in_range p = true /\
               (_validate_price_data p = true \/ source p = fallback_source))
            (fst (run_calls (fun _ _ _ => None) calls m))) /\
  (forall net now l p, try_apis (fun _ _ _ => None) net now l = Some p ->
     _validate_price_data p = true).
Proof.
  eexists. split; [reflexivity|].
  apply price_always_in_range with (apis := default_apis). reflexivity.
Defined.

Lemma all_providers_down_fallback_witness :
  try_apis (fun _ _ _ => None) all_down 3600 (active_apis stale_manager) = None /\
  (exists p m',
    get_current_price (fun _ _ _ => None) all_down 3600 true stale_manager = (Some p, m') /\
    source p = fallback_source /\
    active_apis m' = active_apis stale_manager /\
    cache_price (gold_cache m') = Some p /\
    cache_duration (gold_cache m') = cache_duration (gold_cache stale_manager) /\
    match cache_price (gold_cache stale_manager) with
    | Some cp => p = with_source cp fallback_source /\
                 cache_timestamp (gold_cache m') = cache_timestamp (gold_cache stale_manager)
    | None => p = demo_price 3600 /\ cache_timestamp (gold_cache m') = 3600
    end).
Proof.
  split; [reflexivity|].
  apply all_providers_down_fallback; [reflexivity|].
  right; right. apply Qle_bool_iff. reflexivity.
Defined.

(** C6 refuted: with an expired quote of API Ninjas in the cache and all
    providers down, the stale quote comes back with the very marker the
    placeholder carries, and its source no longer ends with
    "API Ninjas": the marker replaces the source instead of prefixing it. *)
Lemma stale_and_demo_share_marker :
  fst (get_current_price (fun _ _ _ => None) all_down 3600 true stale_manager)
    = Some (with_source stale_quote fallback_source) /\
  source (with_source stale_quote fallback_source) = source (demo_price 3600) /\
  (forall pre, source (with_source stale_quote fallback_source) <> pre ++ source stale_quote).
Proof.
  split; [vm_compute; reflexivity|]. split; [reflexivity|].
  intros pre H. simpl in H.
  pose proof (substring_after_prefix pre "API Ninjas") as Hs.
  rewrite <- H in Hs.
  assert (Hl : String.length fallback_source = (String.length pre + 10)%nat).
  { rewrite H, length_append_str. reflexivity. }
  replace (String.length pre) with (String.length fallback_source - 10)%nat in Hs by lia.
  vm_compute in Hs. discriminate.
Qed.

Lemma providers_tried_by_priority_witness :
  exists m, init two_apis = Some m /\
 (
  Sorted prio_le (active_apis m) /\
  Permutation (active_apis m) (filter (fun a => active (snd a)) two_apis) /\
  (forall net now uc m' pre name cfg rest p,
     active_apis m' = app pre ((name, cfg) :: rest) ->
     (uc = false \/ cache_price (gold_cache m') = None \/
      cache_duration (gold_cache m') <= now - cache_timestamp (gold_cache m')) ->
     Forall (fun a => match _fetch_from_api (fun _ _ _ => None) now (fst a) (net (fst a)) with
                      | Some q => _validate_price_data q = false
                      | None => True end) pre ->
     _fetch_from_api (fun _ _ _ => None) now name (net name) = Some p ->
     _validate_price_data p = true ->
     get_current_price (fun _ _ _ => None) net now uc m' =
       (Some p, mkManager (active_apis m') (mkCache (Some p) now (cache_duration (gold_cache m'))))) /\
  (forall now name st body, st <> 200%Z -> _fetch_from_api (fun _ _ _ => None) now name (NetResponse st body) = None) /\
  (forall now name, _fetch_from_api (fun _ _ _ => None) now name (NetResponse 200 None) = None) /\
  (forall now, exists m2 p,
     init two_apis = Some m2 /\
     fst (get_current_price (fun _ _ _ => None) net_429_then_price now true m2) = Some p /\
     price_usd p = Some (FNum (331006 # 100)) /\ source p = "API Ninjas")).
Proof.
  eexists. split; [reflexivity|].
  apply providers_tried_by_priority with (apis := two_apis). reflexivity.
Defined.

Lemma demo_quote_served_from_cache_witness :
  cache_price (gold_cache empty_manager) = None /\
  cache_duration (gold_cache empty_manager) = 15 * 60 /\
  try_apis (fun _ _ _ => None) all_down 0 (active_apis empty_manager) = None /\
 (
  let (r, m1) := get_current_price (fun _ _ _ => None) all_down 0 true empty_manager in
  r = Some (demo_price 0) /\
  price_usd (demo_price 0) = Some (FNum (332045 # 100)) /\
  gold_cache m1 = mkCache (Some (demo_price 0)) 0 (15 * 60) /\
  (forall calls,
     Forall (fun c : (string -> NetResult) * Q * bool =>
               snd (fst c) - 0 < 15 * 60 /\ snd c = true) calls ->
     run_calls (fun _ _ _ => None) calls m1 = (map (fun _ => Some (demo_price 0)) calls, m1))).
Proof.
  split; [reflexivity|]. split; [reflexivity|]. split; [reflexivity|].
  apply demo_quote_served_from_cache; reflexivity.
Defined.

End PriceProofs.

(* ------------------------------------------------------------------ *)
(** ** Admin operations: tier change, daily summaries *)

Module AdminProofs.

Import Models Auth Admin Scenarios.
Local Open Scope Z_scope.

Lemma find_replace_summary_at n uid d x db :
  summary_key uid d x = true ->
  find_summary uid d db = None ->
  exists i, find_summary uid d (replace_summary_at n uid d x db) = Some (mkSDoc (Some i) x).
Proof.
  unfold find_summary. intros Hk. revert n.
  induction db as [|y r IH]; intros n; simpl.
  - intros _. exists n. rewrite Hk. reflexivity.
  - destruct (summary_key uid d (sdoc y)) eqn:E; [discriminate|].
    intros H. simpl. rewrite E. exact (IH (n + 1) H).
Qed.

Lemma bump_key uid d s t ok pt :
  summary_key uid d s = true -> summary_key uid d (bump_summary s t ok pt) = true.
Proof. intros H. exact H. Qed.

Lemma bump_total s t ok pt :
  total_requests (bump_summary s t ok pt) = total_requests s + 1.
Proof. reflexivity. Qed.

Lemma bump_avg_recurrence s t ok pt :
  0 <= total_requests s ->
  (avg_response_time (bump_summary s t ok pt) ==
   avg_response_time s + (pt - avg_response_time s) / inject_Z (total_requests s + 1))%Q.
Proof.
  intros H. unfold bump_summary; cbn [avg_response_time total_requests].
  assert (Hn : ~ (inject_Z (total_requests s + 1) == 0)%Q).
  { rewrite <- Qeq_bool_iff. unfold Qeq_bool, Qeq, Qcompare. simpl.
    intros Hb. apply Z.eqb_eq in Hb. lia. }
  destruct (1 <? total_requests s + 1) eqn:E.
  - replace (total_requests s + 1 - 1) with (total_requests s) by lia.
    rewrite inject_Z_plus in *. field. exact Hn.
  - apply Z.ltb_ge in E. replace (total_requests s) with 0 by lia.
    simpl. field.
Qed.

(** The first item of the day upserts a summary, which the server stores
    with an [_id]. *)
Lemma update_summary_first clk db uid t ok pt :
  find_summary uid (today clk) db = None ->
  exists i, find_summary uid (today clk) (_update_daily_summary clk db uid t ok pt)
            = Some (mkSDoc (Some i) (bump_summary (new_summary uid (today clk)) t ok pt)).
Proof.
  intros H. unfold _update_daily_summary. cbv zeta. rewrite H.
  apply find_replace_summary_at; [|exact H].
  apply bump_key. unfold summary_key, new_summary; simpl.
  rewrite Z.eqb_refl, String.eqb_refl. reflexivity.
Qed.

(** A summary document read back with its [_id] makes the update raise;
    the collection stays as it is. *)
Lemma update_summary_stuck clk db uid t ok pt x :
  find_summary uid (today clk) db = Some x -> s_id x <> None ->
  _update_daily_summary clk db uid t ok pt = db.
Proof.
  intros H Hi. unfold _update_daily_summary. cbv zeta. rewrite H.
  unfold summary_from_dict. destruct (s_id x); [reflexivity|congruence].
Qed.

Lemma log_many_stuck clk uid tier items : forall st x,
  find_summary uid (today clk) (am_summaries st) = Some x -> s_id x <> None ->
  am_summaries (log_many clk st uid tier items) = am_summaries st.
Proof.
  unfold log_many. induction items as [|[[t ok] pt] r IH]; intros st x H Hi; [reflexivity|].
  simpl.
  assert (E : am_summaries (log_analysis clk st uid t ok (Some pt) None None tier)
              = am_summaries st)
    by (unfold log_analysis; cbn [am_summaries]; exact (update_summary_stuck clk _ uid t ok pt x H Hi)).
  rewrite (IH _ x); [exact E|rewrite E; exact H|exact Hi].
Qed.

Lemma total_time_snoc items t ok pt :
  total_time (app items [(t, ok, pt)]) = (total_time items + pt)%Q.
Proof. unfold total_time. rewrite fold_left_app. reflexivity. Qed.

(** The counters folded in memory, without the database round trip:
    the running average of [bump_summary] is the mean of the times. *)
Lemma bump_fold_mean uid d items :
  items <> [] ->
  let s := fold_left (fun s it => let '(t, ok, pt) := it in bump_summary s t ok pt)
                     items (new_summary uid d) in
  total_requests s = Z.of_nat (length items) /\
  (avg_response_time s == total_time items / inject_Z (Z.of_nat (length items)))%Q.
Proof.
  induction items as [|[[t ok] pt] l IH] using rev_ind; [congruence|]. intros _.
  cbv zeta. rewrite fold_left_app, total_time_snoc, length_app. simpl length. cbn [fold_left].
  destruct l as [|x l'] eqn:El.
  - simpl. split; [reflexivity|]. unfold total_time; simpl. field.
  - rewrite <- El in *. destruct IH as (Ht & Ha); [subst; discriminate|].
    rewrite bump_total, Ht. split; [lia|].
    rewrite bump_avg_recurrence by lia. rewrite Ha, Ht.
    assert (Hpos : (0 < length l)%nat) by (subst; simpl; lia).
    rewrite Nat2Z.inj_add. simpl (Z.of_nat 1).
    assert (Hn1 : ~ (inject_Z (Z.of_nat (length l)) == 0)%Q).
    { rewrite <- Qeq_bool_iff. unfold Qeq_bool, Qeq, Qcompare. simpl.
      intros Hb. apply Z.eqb_eq in Hb. lia. }
    assert (Hn2 : ~ (inject_Z (Z.of_nat (length l) + 1) == 0)%Q).
    { rewrite <- Qeq_bool_iff. unfold Qeq_bool, Qeq, Qcompare. simpl.
      intros Hb. apply Z.eqb_eq in Hb. lia. }
    rewrite inject_Z_plus in *. field. split; assumption.
Qed.

(** C9 (as the code does it): the update formula
    [(avg * (n - 1) + t) / n] equals the recurrence [avg + (t - avg) / n];
    but from a day without a summary, after the recorder logs items
    [(k1, ok1, t1) :: rest], the stored summary counts one request and its
    [avg_response_time] is [t1], whatever [rest] is: the summary read back
    carries [_id], [UserDailySummary(...)] raises and the exception is
    swallowed. *)
Theorem summary_avg_is_mean clk st uid tier t1 ok1 pt1 rest :
  find_summary uid (today clk) (am_summaries st) = None ->
  (exists x,
     find_summary uid (today clk)
       (am_summaries (log_many clk st uid tier ((t1, ok1, pt1) :: rest))) = Some x /\
     total_requests (sdoc x) = 1 /\
     avg_response_time (sdoc x) = pt1) /\
  (forall s t ok pt, 0 <= total_requests s ->
     (avg_response_time (bump_summary s t ok pt) ==
      avg_response_time s + (pt - avg_response_time s) / inject_Z (total_requests s + 1))%Q).
Proof.
  intros H0. split; [|exact bump_avg_recurrence].
  set (st1 := log_analysis clk st uid t1 ok1 (Some pt1) None None tier).
  destruct (update_summary_first clk (am_summaries st) uid t1 ok1 pt1 H0) as [i Hi].
  assert (Hf : find_summary uid (today clk) (am_summaries st1)
               = Some (mkSDoc (Some i) (bump_summary (new_summary uid (today clk)) t1 ok1 pt1)))
    by exact Hi.
  change (log_many clk st uid tier ((t1, ok1, pt1) :: rest)) with (log_many clk st1 uid tier rest).
  rewrite (log_many_stuck clk uid tier rest st1 _ Hf) by discriminate.
  eexists; split; [exact Hf|]. split; reflexivity.
Qed.

Lemma summary_avg_is_mean_witness :
  find_summary 1 (today clock0) (am_summaries (mkAdmin [] [] [])) = None /\
  (exists x,
     find_summary 1 (today clock0)
       (am_summaries (log_many clock0 (mkAdmin [] [] []) 1 BASIC
                        [(QUICK, true, 1%Q); (QUICK, true, 3%Q)])) = Some x /\
     total_requests (sdoc x) = 1 /\
     avg_response_time (sdoc x) = 1%Q) /\
  (forall s t ok pt, 0 <= total_requests s ->
     (avg_response_time (bump_summary s t ok pt) ==
      avg_response_time s + (pt - avg_response_time s) / inject_Z (total_requests s + 1))%Q).
Proof.
  split; [reflexivity|].
  apply (summary_avg_is_mean clock0 (mkAdmin [] [] []) 1 BASIC QUICK true 1%Q [(QUICK, true, 3%Q)]).
  reflexivity.
Defined.

(** Two requests of 1 s and 3 s: the stored average is 1, the mean is 2. *)
Lemma summary_two_items :
  map (fun x => (total_requests (sdoc x), avg_response_time (sdoc x)))
    (am_summaries (log_many clock0 (mkAdmin [] [] []) 1 BASIC
                     [(QUICK, true, 1%Q); (QUICK, true, 3%Q)])) = [(1, 1%Q)] /\
  (total_time [(QUICK, true, 1%Q); (QUICK, true, 3%Q)] / 2 == 2)%Q.
Proof. split; vm_compute; reflexivity. Qed.

(** C4 (as the code does it): [update_user_tier] never resets the daily
    counter.  On a stored document (which carries [_id]) it fails with the
    [TypeError] text and changes nothing, and so does its sibling
    [update_user_subscription] ("user not found").  On a document without
    [_id] it sets the new tier and keeps the counter and its date, while
    [update_user_subscription] sets the counter to 0 dated today. *)
Theorem update_user_tier_keeps_daily_count clk st uid new_tier admin_id d t :
  find_by_id uid (am_users st) = Some d ->
  UserTier_of_string new_tier = Some t ->
  (_id d <> None ->
     update_user_tier clk st uid new_tier admin_id = (TierErr msg_unexpected_id, st) /\
     update_user_subscription clk (am_users st) uid new_tier
       = (AdminError msg_user_not_found, am_users st)) /\
  (_id d = None ->
     (exists d',
        find_by_id uid (am_users (snd (update_user_tier clk st uid new_tier admin_id))) = Some d' /\
        tier (doc d') = t /\
        daily_analyses_count (doc d') = daily_analyses_count (doc d) /\
        daily_analyses_date (doc d') = daily_analyses_date (doc d)) /\
     (exists d'',
        find_by_id uid (snd (update_user_subscription clk (am_users st) uid new_tier)) = Some d'' /\
        tier (doc d'') = t /\
        daily_analyses_count (doc d'') = 0 /\
        daily_analyses_date (doc d'') = Some (today clk))).
Proof.
  intros Hf Ht. pose proof (QuotaProofs.find_by_id_some _ _ _ Hf) as Hid.
  unfold update_user_tier, update_user_subscription, get_user_by_id.
  rewrite Ht, Hf. unfold from_dict. split.
  - intros Hi. destruct (_id d); [split; reflexivity|congruence].
  - intros Hi. rewrite Hi. split.
    + cbn [snd log_analysis am_users].
      rewrite QuotaProofs.find_update_by_id by (intros; exact Hid). rewrite Hf.
      eexists; split; [reflexivity|]. repeat split; reflexivity.
    + unfold update_user. cbn [snd].
      destruct (existsb _ _); cbn [snd user_id set_daily set_subscription set_tier]; rewrite Hid;
        (rewrite QuotaProofs.find_update_by_id by (intros; exact Hid); rewrite Hf;
         eexists; split; [reflexivity|]; repeat split; reflexivity).
Qed.

Lemma update_user_tier_keeps_daily_count_witness :
  find_by_id 7 (am_users (mkAdmin [mkDoc (Some 0) (exhausted_user 7)] [] []))
    = Some (mkDoc (Some 0) (exhausted_user 7)) /\
  UserTier_of_string "premium" = Some PREMIUM /\
  (_id (mkDoc (Some 0) (exhausted_user 7)) <> None ->
     update_user_tier clock0 (mkAdmin [mkDoc (Some 0) (exhausted_user 7)] [] []) 7 "premium" "admin"
       = (TierErr msg_unexpected_id, mkAdmin [mkDoc (Some 0) (exhausted_user 7)] [] []) /\
     update_user_subscription clock0 (am_users (mkAdmin [mkDoc (Some 0) (exhausted_user 7)] [] [])) 7 "premium"
       = (AdminError msg_user_not_found, am_users (mkAdmin [mkDoc (Some 0) (exhausted_user 7)] [] []))) /\
  (_id (mkDoc (Some 0) (exhausted_user 7)) = None ->
     (exists d',
        find_by_id 7 (am_users (snd (update_user_tier clock0 (mkAdmin [mkDoc (Some 0) (exhausted_user 7)] [] []) 7 "premium" "admin"))) = Some d' /\
        tier (doc d') = PREMIUM /\
        daily_analyses_count (doc d') = daily_analyses_count (doc (mkDoc (Some 0) (exhausted_user 7))) /\
        daily_analyses_date (doc d') = daily_analyses_date (doc (mkDoc (Some 0) (exhausted_user 7)))) /\
     (exists d'',
        find_by_id 7 (snd (update_user_subscription clock0 (am_users (mkAdmin [mkDoc (Some 0) (exhausted_user 7)] [] [])) 7 "premium")) = Some d'' /\
        tier (doc d'') = PREMIUM /\
        daily_analyses_count (doc d'') = 0 /\
        daily_analyses_date (doc d'') = Some (today clock0))).
Proof.
  split; [reflexivity|]. split; [reflexivity|].
  apply update_user_tier_keeps_daily_count; reflexivity.
Defined.

(** An account stored by [register_user] and then moved to premium by
    the admin: the call returns the [TypeError] text and the account keeps
    its BASIC tier. *)
Lemma registered_tier_change_fails :
  let st := snd (register_user clock0 rnd0 auth0 "ahmed@test.com" "Pw123456") in
  fst (update_user_tier clock0 (mkAdmin (users st) [] []) 1000 "premium" "admin")
    = TierErr msg_unexpected_id /\
  map (fun d => tier (doc d))
      (am_users (snd (update_user_tier clock0 (mkAdmin (users st) [] []) 1000 "premium" "admin")))
    = [BASIC].
Proof. split; vm_compute; reflexivity. Qed.

(** An exhausted BASIC user in a document without [_id], moved to
    premium: 4 analyses left through [update_user_tier], 5 through
    [update_user_subscription]. *)
Lemma tier_change_remaining :
  fst (get_remaining_analyses_today "2026-10-15"
         (match find_by_id 7 (am_users (snd (update_user_tier clock0 (mkAdmin [mkDoc None (exhausted_user 7)] [] []) 7 "premium" "admin"))) with Some d => doc d | None => exhausted_user 7 end)) = 4 /\
  fst (get_remaining_analyses_today "2026-10-15"
         (match find_by_id 7 (snd (update_user_subscription clock0 [mkDoc None (exhausted_user 7)] 7 "premium")) with Some d => doc d | None => exhausted_user 7 end)) = 5.
Proof. split; vm_compute; reflexivity. Qed.

End AdminProofs.

(* ------------------------------------------------------------------ *)
(** ** Registration and login *)

Module AuthProofs.

Import Models Auth Scenarios.
Local Open Scope Z_scope.

Lemma append_empty_r (s : string) : s ++ "" = s.
Proof. induction s; simpl; congruence. Qed.

Lemma append_assoc_str (s t u : string) : (s ++ t) ++ u = s ++ t ++ u.
Proof. induction s; simpl; congruence. Qed.

Lemma hexd_in n : In (Sha256.hexd n) Sha256.hexchars.
Proof.
  unfold Sha256.hexd. apply nth_In. simpl length.
  pose proof (Z.mod_pos_bound n 16 ltac:(lia)). lia.
Qed.

Lemma all_hex_app s t : all_hex s -> all_hex t -> all_hex (s ++ t).
Proof. induction s; simpl; tauto. Qed.

Lemma all_hex_hex8 w : all_hex (Sha256.hex8 w).
Proof. unfold Sha256.hex8; simpl; repeat split; apply hexd_in. Qed.

Lemma all_hex_token rnd : all_hex (token_hex rnd).
Proof.
  induction rnd as [|b r IH]; simpl; [exact I|].
  unfold Sha256.hex2; simpl. repeat split; try apply hexd_in; exact IH.
Qed.

Lemma all_hex_digest p s : all_hex (digest p s).
Proof.
  unfold digest, Sha256.hexdigest.
  repeat (apply all_hex_app; [apply all_hex_hex8|]). apply all_hex_hex8.
Qed.

Lemma colon_not_hex c : In c Sha256.hexchars -> Ascii.eqb c ":" = false.
Proof. simpl. intros H. repeat destruct H as [<-|H]; try reflexivity. destruct H. Qed.

Lemma split_colon_hex s t cur :
  all_hex s -> all_hex t -> split_colon_aux (s ++ ":" ++ t) cur = [cur ++ s; t].
Proof.
  revert cur. induction s as [|c r IH]; intros cur Hs Ht; simpl.
  - rewrite append_empty_r.
    assert (Hr : forall u cur', all_hex u -> split_colon_aux u cur' = [cur' ++ u]).
    { induction u as [|c u IHu]; intros cur' Hu; simpl; [rewrite append_empty_r; reflexivity|].
      destruct Hu as [Hc Hu]. rewrite colon_not_hex by exact Hc.
      rewrite IHu by exact Hu. rewrite append_assoc_str. reflexivity. }
    rewrite Hr by exact Ht. reflexivity.
  - destruct Hs as [Hc Hs]. rewrite colon_not_hex by exact Hc.
    rewrite IH by assumption. rewrite append_assoc_str. reflexivity.
Qed.

Lemma verify_hash p' rnd p :
  _verify_password p' (_hash_password rnd p) =
  String.eqb (digest p' (token_hex rnd)) (digest p (token_hex rnd)).
Proof.
  unfold _verify_password, _hash_password, split_colon.
  rewrite split_colon_hex by (apply all_hex_token || apply all_hex_digest). reflexivity.
Qed.

Lemma register_success clk rnd st e p r st1 :
  register_user clk rnd st e p = (r, st1) -> success r = true ->
  existsb (fun v => String.eqb (email (doc v)) (Py.lower e)
                    || Z.eqb (user_id (doc v)) (user_counter st)) (users st) = false /\
  users st1 = app (users st)
    [mkDoc (Some (Z.of_nat (length (users st))))
       (mkUser (user_counter st) (Py.lower e) (_hash_password rnd p) BASIC
               (Some (now clk)) None 0 0 None ACTIVE (now clk) None)].
Proof.
  unfold register_user.
  destruct (negb (_validate_email e)); [intros H; injection H as <- _; discriminate|].
  destruct (find_by_email e (users st)); [intros H; injection H as <- _; discriminate|].
  destruct (_validate_password p) as [ok perr].
  destruct (negb ok); [intros H; injection H as <- _; discriminate|].
  unfold insert_one. cbn [email user_id].
  destruct (existsb _ (users st)) eqn:E; [intros H; injection H as <- _; discriminate|].
  intros H; injection H as <- <-. intros _. split; reflexivity.
Qed.

Lemma find_by_email_last x k l d :
  existsb (fun v => String.eqb (email (doc v)) x || Z.eqb (user_id (doc v)) k) l = false ->
  email (doc d) = x ->
  find_by_email x (app l [d]) = Some d.
Proof.
  intros Hl Hu. induction l as [|v r IH]; simpl in *.
  - unfold find_by_email; simpl. rewrite Hu, String.eqb_refl. reflexivity.
  - apply orb_false_iff in Hl as [Hv Hr]. apply orb_false_iff in Hv as [Hv _].
    unfold find_by_email in *; simpl. rewrite Hv. exact (IH Hr).
Qed.

(** C3 (as the code does it): the stored hash verifies the password it
    was made from, but once [register_user] succeeded for [e] and [p],
    every login with [e], whatever the password, fails with the generic
    login error and changes nothing: the document read back carries
    [_id] and [User.from_dict] raises before the password is checked. *)
Theorem register_login_roundtrip clk rnd st e p r st1 :
  register_user clk rnd st e p = (r, st1) -> success r = true ->
  _verify_password p (_hash_password rnd p) = true /\
  (forall clk' p', login_user clk' st1 e p' = (fail msg_login_failed, st1)).
Proof.
  intros Hr Hs. split.
  - rewrite verify_hash. apply String.eqb_refl.
  - intros clk' p'. destruct (register_success _ _ _ _ _ _ _ Hr Hs) as [Hex Hu].
    unfold login_user. rewrite Hu.
    erewrite (find_by_email_last (Py.lower e) (user_counter st) (users st)); [|exact Hex|reflexivity].
    reflexivity.
Qed.

Lemma register_login_roundtrip_witness :
  let R := register_user clock0 rnd0 auth0 "ahmed@test.com" "Pw123456" in
  R = (fst R, snd R) /\ success (fst R) = true /\
  _verify_password "Pw123456" (_hash_password rnd0 "Pw123456") = true /\
  (forall clk' p', login_user clk' (snd R) "ahmed@test.com" p' = (fail msg_login_failed, snd R)).
Proof.
  intros R. split; [apply surjective_pairing|]. split; [vm_compute; reflexivity|].
  apply (register_login_roundtrip clock0 rnd0 auth0 "ahmed@test.com" "Pw123456" (fst R) (snd R));
    [apply surjective_pairing | vm_compute; reflexivity].
Defined.

(** C8 (a slip): the existence check of [register_user] looks up the
    e-mail as typed, but the account is stored lowercased; registering
    "Ahmed@test.com" twice stores "ahmed@test.com" once and the second
    call ends in the generic registration error, raised by the unique
    index, not in the already-registered error. *)
Lemma register_mixed_case_twice :
  let (r1, st1) := register_user clock0 rnd0 auth0 "Ahmed@test.com" "Pw123456" in
  success r1 = true /\
  map (fun d => email (doc d)) (users st1) = ["ahmed@test.com"] /\
  error (fst (register_user clock0 rnd0 st1 "Ahmed@test.com" "Pw123456")) =
    Some msg_register_failed.
Proof. vm_compute. repeat split; reflexivity. Qed.

End AuthProofs.

(* ------------------------------------------------------------------ *)
(** ** The [/analyze] endpoint *)

Module ServerProofs.

Import Models Auth Admin GoldPriceMgr Server Scenarios PriceScenarios.
Local Open Scope Z_scope.

(** C1 (as the code does it): [analyze_gold] takes no user from the
    request and applies no quota: it leaves the users collection as it
    was, and its response does not depend on the users collection. *)
Theorem analyze_gold_ignores_users po gen clk net pt st req users' :
  am_users (admin_manager (snd (analyze_gold po gen clk net pt st req))) =
    am_users (admin_manager st) /\
  fst (analyze_gold po gen clk net pt
         (mkServer (price_manager st)
                   (mkAdmin users' (am_logs (admin_manager st)) (am_summaries (admin_manager st))))
         req) =
  fst (analyze_gold po gen clk net pt st req).
Proof.
  unfold analyze_gold. cbn [price_manager admin_manager].
  destruct (AnalysisType_of_string (analysis_type req)); [|split; reflexivity].
  destruct (get_current_price po net (now clk) true (price_manager st)) as [gp pm].
  destruct (gen _ gp _); split; reflexivity.
Qed.

(** C1 refuted: user 1, the user the handler logs the request for, is a
    BASIC user whose analysis of the day is used up (in a document
    [User.from_dict] accepts, so the quota check itself is reached), so
    [can_user_analyze] refuses; [analyze_gold] still answers with
    success and the user's counter is not touched. *)
Lemma analyze_gold_serves_exhausted_user :
  let st := mkServer empty_manager (mkAdmin [mkDoc None (exhausted_user 1)] [] []) in
  snd (fst (can_user_analyze clock0 (am_users (admin_manager st)) 1)) = msg_free_exhausted /\
  fst (fst (can_user_analyze clock0 (am_users (admin_manager st)) 1)) = false /\
  a_success (fst (analyze_gold (fun _ _ _ => None) gen_ok clock0 net_429_then_price 2 st
                    (mkReq "quick" (Some "price?") None))) = true /\
  am_users (admin_manager (snd (analyze_gold (fun _ _ _ => None) gen_ok clock0 net_429_then_price 2 st
                    (mkReq "quick" (Some "price?") None)))) = [mkDoc None (exhausted_user 1)].
Proof. vm_compute. repeat split; reflexivity. Qed.

End ServerProofs.

(* ------------------------------------------------------------------ *)
(** ** Further properties of [models.py] *)

Module ModelsFacts.

Import Models Scenarios.
Local Open Scope Z_scope.

Lemma opt_str_neq_false x t : Py.opt_str_neq x t = false -> x = Some t.
Proof.
  destruct x as [s|]; simpl; [|discriminate].
  destruct (String.eqb_spec s t); [congruence|discriminate].
Qed.

(** [get_remaining_analyses_today]: the object it returns is dated
    [today] and carries the counter of the day (zero when the stored date
    is another day); the result is [-1] exactly for VIP, and otherwise
    [max(0, limit - count)], which lies between [0] and the daily limit
    when the counter is not negative. *)
Theorem remaining_analyses_bounds today u :
  0 <= effective_count today u ->
  let (r, u1) := get_remaining_analyses_today today u in
  daily_analyses_date u1 = Some today /\
  daily_analyses_count u1 = effective_count today u /\
  tier u1 = tier u /\
  (tier u = VIP -> r = -1) /\
  (tier u <> VIP ->
   r = Z.max 0 (get_daily_limit u - effective_count today u) /\
   0 <= r <= get_daily_limit u).
Proof.
  unfold get_remaining_analyses_today, effective_count.
  destruct (Py.opt_str_neq (daily_analyses_date u) today) eqn:E.
  - intros H. unfold get_daily_limit; cbn [set_daily daily_analyses_date daily_analyses_count tier].
    destruct (tier u) eqn:T; cbn; repeat split; try congruence; lia.
  - apply opt_str_neq_false in E. intros H.
    unfold get_daily_limit. destruct (tier u) eqn:T; cbn -[Z.max Z.sub] in *; repeat split; try congruence; lia.
Qed.

Lemma remaining_analyses_bounds_witness :
  0 <= effective_count "2026-10-15" basic_user /\
  (let (r, u1) := get_remaining_analyses_today "2026-10-15" basic_user in
   daily_analyses_date u1 = Some "2026-10-15" /\
   daily_analyses_count u1 = effective_count "2026-10-15" basic_user /\
   tier u1 = tier basic_user /\
   (tier basic_user = VIP -> r = -1) /\
   (tier basic_user <> VIP ->
    r = Z.max 0 (get_daily_limit basic_user - effective_count "2026-10-15" basic_user) /\
    0 <= r <= get_daily_limit basic_user)).
Proof.
  split; [vm_compute; discriminate|].
  apply (remaining_analyses_bounds "2026-10-15" basic_user). vm_compute. discriminate.
Defined.

(** [get_tier_features]: the [daily_analyses] entry of the feature table
    is the limit [get_daily_limit] enforces, for every tier. *)
Theorem tier_features_daily_limit u :
  daily_analyses (get_tier_features u) = get_daily_limit u.
Proof. unfold get_tier_features, get_daily_limit. destruct (tier u); reflexivity. Qed.

End ModelsFacts.

(* ------------------------------------------------------------------ *)
(** ** Further properties of [auth_manager.py] *)

Module AuthFacts.

Import Models Auth Scenarios AuthProofs.
Local Open Scope Z_scope.


Lemma split_nocolon s cur : no_colon s -> split_colon_aux s cur = [cur ++ s].
Proof.
  revert cur. induction s as [|c r IH]; intros cur H; simpl.
  - rewrite append_empty_r. reflexivity.
  - unfold no_colon in H; simpl in H.
    destruct (Ascii.eqb_spec c ":"); [exfalso; apply H; left; congruence|].
    rewrite IH by (intros Hi; apply H; right; exact Hi).
    rewrite append_assoc_str. reflexivity.
Qed.

Lemma split_nonempty s cur : split_colon_aux s cur <> [].
Proof.
  revert cur. induction s as [|c r IH]; intros cur; simpl; [discriminate|].
  destruct (Ascii.eqb c ":"); [discriminate|apply IH].
Qed.

Lemma split_one s cur b : split_colon_aux s cur = [b] -> no_colon s /\ b = cur ++ s.
Proof.
  revert cur. induction s as [|c r IH]; intros cur; simpl.
  - intros H; injection H as <-. split; [intros []|]. rewrite append_empty_r. reflexivity.
  - destruct (Ascii.eqb_spec c ":").
    + intros H; injection H as _ H. exfalso. exact (split_nonempty _ _ H).
    + intros H. destruct (IH _ H) as [H1 H2]. split.
      * intros [Hc|Hi]; [congruence|exact (H1 Hi)].
      * rewrite H2, append_assoc_str. reflexivity.
Qed.

Lemma split_two s cur a b :
  split_colon_aux s cur = [a; b] ->
  exists x, no_colon x /\ no_colon b /\ s = x ++ ":" ++ b /\ a = cur ++ x.
Proof.
  revert cur. induction s as [|c r IH]; intros cur; simpl; [discriminate|].
  destruct (Ascii.eqb_spec c ":").
  - intros H; injection H as <- H. apply split_one in H as [H1 H2]. simpl in H2. subst.
    exists "". split; [intros []|]. split; [exact H1|]. split; [reflexivity|].
    rewrite append_empty_r. reflexivity.
  - intros H. destruct (IH _ H) as [x [Hx [Hb [Hs Ha]]]].
    exists (String c x). split; [intros [Hc|Hi]; [congruence|exact (Hx Hi)]|].
    split; [exact Hb|]. split; [rewrite Hs; reflexivity|].
    rewrite Ha, append_assoc_str. reflexivity.
Qed.

Lemma split_two_back x b cur :
  no_colon x -> no_colon b -> split_colon_aux (x ++ ":" ++ b) cur = [cur ++ x; b].
Proof.
  revert cur. induction x as [|c r IH]; intros cur Hx Hb; simpl.
  - rewrite split_nocolon by exact Hb. rewrite append_empty_r. reflexivity.
  - unfold no_colon in Hx; simpl in Hx.
    destruct (Ascii.eqb_spec c ":"); [exfalso; apply Hx; left; congruence|].
    rewrite IH by (exact (fun Hi => Hx (or_intror Hi)) || exact Hb).
    rewrite append_assoc_str. reflexivity.
Qed.

Lemma all_hex_no_colon s : all_hex s -> no_colon s.
Proof.
  induction s as [|c r IH]; simpl; [intros _ []|].
  intros [Hc Hr] [E|Hi].
  - subst c. apply colon_not_hex in Hc. discriminate.
  - exact (IH Hr Hi).
Qed.

(** [_verify_password]: a stored hash verifies [p] exactly when it is
    [salt:d] with a salt free of colons and [d] the SHA-256 hex digest of
    [p + salt]; any other shape (no colon, several colons) is refused. *)
Theorem verify_password_spec p h :
  _verify_password p h = true <->
  exists salt, no_colon salt /\ h = salt ++ ":" ++ digest p salt.
Proof.
  unfold _verify_password, split_colon. split.
  - destruct (split_colon_aux h "") as [|a [|b [|c r]]] eqn:E; try discriminate.
    intros Hd. apply String.eqb_eq in Hd. subst b.
    destruct (split_two _ _ _ _ E) as [x [Hx [_ [Hs Ha]]]]. simpl in Ha. subst a.
    exists x. split; assumption.
  - intros [salt [Hs ->]].
    rewrite split_two_back by (exact Hs || apply all_hex_no_colon, all_hex_digest).
    apply String.eqb_refl.
Qed.

Lemma token_hex_length rnd : String.length (token_hex rnd) = (2 * length rnd)%nat.
Proof. induction rnd as [|b r IH]; simpl; [reflexivity|]. rewrite IH. lia. Qed.

Lemma digest_length p s : String.length (digest p s) = 64%nat.
Proof.
  unfold digest, Sha256.hexdigest.
  repeat rewrite PriceProofs.length_append_str. reflexivity.
Qed.

(** [_hash_password]: the stored hash is the salt ([token_hex] of the
    random bytes, two hex digits per byte), one colon and the 64-digit
    SHA-256 hex digest of password plus salt; splitting it at [:] gives
    back exactly these two parts, and it verifies the password it was
    made from. *)
Theorem hash_password_format rnd p :
  split_colon (_hash_password rnd p) = [token_hex rnd; digest p (token_hex rnd)] /\
  String.length (token_hex rnd) = (2 * length rnd)%nat /\
  String.length (digest p (token_hex rnd)) = 64%nat /\
  _verify_password p (_hash_password rnd p) = true.
Proof.
  split; [|split; [apply token_hex_length|split; [apply digest_length|]]].
  - unfold split_colon, _hash_password.
    rewrite split_colon_hex by (apply all_hex_token || apply all_hex_digest). reflexivity.
  - rewrite verify_hash. apply String.eqb_refl.
Qed.


Lemma register_fail clk rnd st e p r st1 :
  register_user clk rnd st e p = (r, st1) -> success r = false -> st1 = st.
Proof.
  unfold register_user.
  destruct (negb (_validate_email e)); [intros H; injection H as <- <-; reflexivity|].
  destruct (find_by_email e (users st)); [intros H; injection H as <- <-; reflexivity|].
  destruct (_validate_password p) as [ok perr].
  destruct (negb ok); [intros H; injection H as <- <-; reflexivity|].
  destruct (insert_one _ _); intros H; injection H as <- <-; [discriminate|reflexivity].
Qed.

Lemma register_success_resp clk rnd st e p r st1 :
  register_user clk rnd st e p = (r, st1) -> success r = true ->
  user_counter st1 = user_counter st + 1 /\
  resp_user_id r = Some (user_counter st) /\ resp_email r = Some (Py.lower e) /\
  daily_analyses_remaining r = Some 1.
Proof.
  unfold register_user.
  destruct (negb (_validate_email e)); [intros H; injection H as <- _; discriminate|].
  destruct (find_by_email e (users st)); [intros H; injection H as <- _; discriminate|].
  destruct (_validate_password p) as [ok perr].
  destruct (negb ok); [intros H; injection H as <- _; discriminate|].
  destruct (insert_one _ _); intros H; injection H as <- <-; [|discriminate].
  intros _. repeat split; reflexivity.
Qed.

(** [register_user]: a call that fails leaves the collection and the id
    counter as they were; a call that succeeds appends exactly one
    document (with the [_id] of the insert) holding a fresh ACTIVE BASIC
    account with the current counter as id, the lowercased e-mail and the
    salted hash, increments the counter, and answers with that id and
    e-mail and one analysis left today. *)
Theorem register_user_outcome clk rnd st e p :
  let (r, st1) := register_user clk rnd st e p in
  (success r = false /\ st1 = st) \/
  (success r = true /\ user_counter st1 = user_counter st + 1 /\
   users st1 = app (users st)
     [mkDoc (Some (Z.of_nat (length (users st))))
        (mkUser (user_counter st) (Py.lower e) (_hash_password rnd p) BASIC
                (Some (now clk)) None 0 0 None ACTIVE (now clk) None)] /\
   resp_user_id r = Some (user_counter st) /\ resp_email r = Some (Py.lower e) /\
   daily_analyses_remaining r = Some 1).
Proof.
  destruct (register_user clk rnd st e p) as [r st1] eqn:R.
  destruct (success r) eqn:S.
  - right. destruct (register_success _ _ _ _ _ _ _ R S) as [_ Hu].
    destruct (register_success_resp _ _ _ _ _ _ _ R S) as [H1 [H2 [H3 H4]]].
    repeat split; assumption.
  - left. split; [reflexivity|exact (register_fail _ _ _ _ _ _ _ R S)].
Qed.

Lemma nodup_snoc {A} (l : list A) x : NoDup l -> ~ In x l -> NoDup (app l [x]).
Proof.
  intros H Hx. apply Permutation_NoDup with (x :: l);
    [apply Permutation_cons_append|constructor; assumption].
Qed.

(** [register_user] keeps the two unique keys of the [users] collection
    unique: no two documents with the same e-mail, nor with the same
    [user_id]. *)
Theorem register_keeps_keys_unique clk rnd st e p :
  NoDup (map (fun d => email (doc d)) (users st)) ->
  NoDup (map (fun d => user_id (doc d)) (users st)) ->
  NoDup (map (fun d => email (doc d)) (users (snd (register_user clk rnd st e p)))) /\
  NoDup (map (fun d => user_id (doc d)) (users (snd (register_user clk rnd st e p)))).
Proof.
  intros He Hi. destruct (register_user clk rnd st e p) as [r st1] eqn:R. simpl.
  destruct (success r) eqn:S.
  - destruct (register_success _ _ _ _ _ _ _ R S) as [Hex Hu]. rewrite Hu, !map_app.
    rewrite <- Bool.not_true_iff_false, existsb_exists in Hex.
    split; apply nodup_snoc; try assumption; intros Hin; apply in_map_iff in Hin as [d [Hd Hin]];
      apply Hex; exists d; split; try exact Hin; simpl in Hd; rewrite Hd.
    + rewrite String.eqb_refl. reflexivity.
    + rewrite Z.eqb_refl, orb_true_r. reflexivity.
  - rewrite (register_fail _ _ _ _ _ _ _ R S). split; assumption.
Qed.

Lemma register_keeps_keys_unique_witness :
  NoDup (map (fun d => email (doc d)) (users auth0)) /\
  NoDup (map (fun d => user_id (doc d)) (users auth0)) /\
  NoDup (map (fun d => email (doc d))
           (users (snd (register_user clock0 rnd0 auth0 "ahmed@test.com" "Pw123456")))) /\
  NoDup (map (fun d => user_id (doc d))
           (users (snd (register_user clock0 rnd0 auth0 "ahmed@test.com" "Pw123456")))).
Proof.
  split; [constructor|]. split; [constructor|].
  apply register_keeps_keys_unique; constructor.
Defined.

Lemma fold_max_ge l a :
  a <= fold_left Z.max l a /\ forall x, In x l -> x <= fold_left Z.max l a.
Proof.
  revert a. induction l as [|y r IH]; intros a; simpl.
  - split; [lia|intros _ []].
  - destruct (IH (Z.max a y)) as [H1 H2]. split; [lia|].
    intros x [<-|Hx]; [lia|exact (H2 x Hx)].
Qed.

(** [initialize]: after it the id counter is above the [user_id] of every
    stored document. *)
Theorem initialize_counter_above st :
  forall d, In d (users (initialize st)) -> user_id (doc d) < user_counter (initialize st).
Proof.
  unfold initialize. destruct (users st) as [|d0 r] eqn:U.
  - rewrite U. intros d [].
  - cbn [users user_counter]. pose proof (fold_max_ge (map (fun v => user_id (doc v)) r) (user_id (doc d0))) as [H1 H2].
    intros d [<-|Hd]; [lia|].
    specialize (H2 (user_id (doc d)) (in_map (fun v => user_id (doc v)) _ _ Hd)). lia.
Qed.

Lemma initialize_counter_above_witness :
  In (mkDoc (Some 0) basic_user) (users (initialize (mkAuth [mkDoc (Some 0) basic_user] 1))) /\
  user_id (doc (mkDoc (Some 0) basic_user))
    < user_counter (initialize (mkAuth [mkDoc (Some 0) basic_user] 1)).
Proof.
  split; [left; reflexivity|]. apply initialize_counter_above. left. reflexivity.
Defined.

Lemma register_fresh_id clk rnd st e p r st1 :
  (forall d, In d (users st) -> user_id (doc d) < user_counter st) ->
  register_user clk rnd st e p = (r, st1) ->
  forall d, In d (users st1) -> user_id (doc d) < user_counter st1.
Proof.
  intros H R. destruct (success r) eqn:S.
  - destruct (register_success _ _ _ _ _ _ _ R S) as [_ Hu].
    destruct (register_success_resp _ _ _ _ _ _ _ R S) as [Hc _].
    rewrite Hu, Hc. intros d Hd. apply in_app_or in Hd as [Hd|[<-|[]]].
    + specialize (H d Hd). lia.
    + simpl. lia.
  - rewrite (register_fail _ _ _ _ _ _ _ R S). exact H.
Qed.

(** [register_user] keeps the counter above every stored [user_id], the
    state [initialize] sets up. *)
Theorem register_keeps_counter_above clk rnd st e p :
  (forall d, In d (users st) -> user_id (doc d) < user_counter st) ->
  forall d, In d (users (snd (register_user clk rnd st e p))) ->
  user_id (doc d) < user_counter (snd (register_user clk rnd st e p)).
Proof.
  intros H. destruct (register_user clk rnd st e p) as [r st1] eqn:R.
  exact (register_fresh_id _ _ _ _ _ _ _ H R).
Qed.


Lemma register_keeps_counter_above_witness :
  (forall d, In d (users reg1) -> user_id (doc d) < user_counter reg1) /\
  (forall d, In d (users (snd (register_user clock0 rnd0 reg1 "sara@test.com" "Pw654321"))) ->
   user_id (doc d) < user_counter (snd (register_user clock0 rnd0 reg1 "sara@test.com" "Pw654321"))).
Proof.
  assert (H : forall d, In d (users reg1) -> user_id (doc d) < user_counter reg1).
  { vm_compute. intros d [<-|[]]. reflexivity. }
  split; [exact H|]. apply register_keeps_counter_above. exact H.
Defined.

(** [register_user] succeeds when the e-mail and the password pass the
    checks, no document holds the e-mail as typed nor its lowercased form,
    and the counter is above every stored id. *)
Theorem register_succeeds clk rnd st e p :
  (forall d, In d (users st) -> user_id (doc d) < user_counter st) ->
  _validate_email e = true -> fst (_validate_password p) = true ->
  find_by_email e (users st) = None -> find_by_email (Py.lower e) (users st) = None ->
  success (fst (register_user clk rnd st e p)) = true.
Proof.
  intros Hc He Hp Hf Hl. unfold register_user. rewrite He, Hf. simpl negb. cbv iota.
  destruct (_validate_password p) as [ok perr]. simpl in Hp. subst ok. simpl negb. cbv iota.
  unfold insert_one. cbn [email user_id].
  destruct (existsb _ (users st)) eqn:E; [|reflexivity].
  apply existsb_exists in E as [d [Hd E]]. apply orb_true_iff in E as [E|E].
  - unfold find_by_email in Hl. pose proof (find_none _ _ Hl d Hd) as N. simpl in N. congruence.
  - apply Z.eqb_eq in E. specialize (Hc d Hd). lia.
Qed.

Lemma register_succeeds_witness :
  (forall d, In d (users reg1) -> user_id (doc d) < user_counter reg1) /\
  _validate_email "sara@test.com" = true /\ fst (_validate_password "Pw654321") = true /\
  find_by_email "sara@test.com" (users reg1) = None /\
  find_by_email (Py.lower "sara@test.com") (users reg1) = None /\
  success (fst (register_user clock0 rnd0 reg1 "sara@test.com" "Pw654321")) = true.
Proof.
  assert (H : forall d, In d (users reg1) -> user_id (doc d) < user_counter reg1).
  { vm_compute. intros d [<-|[]]. reflexivity. }
  split; [exact H|]. split; [vm_compute; reflexivity|]. split; [vm_compute; reflexivity|].
  split; [vm_compute; reflexivity|]. split; [vm_compute; reflexivity|].
  apply register_succeeds; [exact H|vm_compute; reflexivity..].
Defined.

Lemma stored_from_dict db d : all_stored db = true -> In d db -> from_dict d = None.
Proof.
  unfold all_stored. rewrite forallb_forall. intros H Hd. specialize (H d Hd).
  unfold from_dict. destruct (_id d); [reflexivity|discriminate].
Qed.

(** On a collection whose documents all carry the [_id] of the insert,
    [get_user_by_id] and [get_user_by_email] find no user, whatever the
    key; [can_user_analyze] answers user-not-found and [record_analysis]
    refuses and writes nothing. *)
Theorem stored_users_unreadable clk db uid e :
  all_stored db = true ->
  get_user_by_id db uid = None /\ get_user_by_email db e = None /\
  can_user_analyze clk db uid = (false, msg_user_not_found, 0) /\
  record_analysis clk db uid = (false, db).
Proof.
  intros H.
  assert (Hid : get_user_by_id db uid = None).
  { unfold get_user_by_id. destruct (find_by_id uid db) as [d|] eqn:F; [|reflexivity].
    apply find_some in F as [F _]. exact (stored_from_dict _ _ H F). }
  split; [exact Hid|]. split.
  - unfold get_user_by_email. destruct (find_by_email _ db) as [d|] eqn:F; [|reflexivity].
    apply find_some in F as [F _]. exact (stored_from_dict _ _ H F).
  - unfold can_user_analyze, record_analysis. rewrite Hid. split; reflexivity.
Qed.

Lemma stored_users_unreadable_witness :
  all_stored (users reg1) = true /\
  get_user_by_id (users reg1) 1000 = None /\
  get_user_by_email (users reg1) "ahmed@test.com" = None /\
  can_user_analyze clock0 (users reg1) 1000 = (false, msg_user_not_found, 0) /\
  record_analysis clock0 (users reg1) 1000 = (false, users reg1).
Proof.
  split; [vm_compute; reflexivity|].
  apply stored_users_unreadable. vm_compute. reflexivity.
Defined.





End AuthFacts.

(* ------------------------------------------------------------------ *)
(** ** Further properties of [admin_manager.py] *)

Module AdminFacts.

Import Models Auth Admin Scenarios.
Local Open Scope Z_scope.

(** [toggle_user_status]: every error answer leaves the collections as
    they were (no write, no audit entry). *)
Theorem toggle_error_keeps_state clk st uid admin_id msg :
  fst (toggle_user_status clk st uid admin_id) = ToggleErr msg ->
  snd (toggle_user_status clk st uid admin_id) = st.
Proof.
  unfold toggle_user_status.
  destruct (find_by_id uid (am_users st)) as [d|]; [|reflexivity].
  destruct (from_dict d) as [u|]; [|reflexivity].
  destruct (status u); cbn; intros H; try reflexivity; discriminate.
Qed.

Lemma toggle_error_keeps_state_witness :
  fst (toggle_user_status clock0 (admin_one (set_status basic_user BLOCKED 0)) 1000 "root")
    = ToggleErr "Cannot toggle user with status: blocked" /\
  snd (toggle_user_status clock0 (admin_one (set_status basic_user BLOCKED 0)) 1000 "root")
    = admin_one (set_status basic_user BLOCKED 0).
Proof.
  split; [vm_compute; reflexivity|].
  apply (toggle_error_keeps_state _ _ _ _ "Cannot toggle user with status: blocked").
  vm_compute. reflexivity.
Defined.

(** [toggle_user_status] on a collection whose documents all carry the
    [_id] of the insert: an existing user cannot be loaded, the answer is
    the [TypeError] text, and nothing is written. *)
Theorem toggle_stored_fails clk st uid admin_id :
  all_stored (am_users st) = true ->
  toggle_user_status clk st uid admin_id =
    (ToggleErr (match find_by_id uid (am_users st) with
                | Some _ => msg_unexpected_id
                | None => "User not found"
                end), st).
Proof.
  intros H. unfold toggle_user_status.
  destruct (find_by_id uid (am_users st)) as [d|] eqn:F; [|reflexivity].
  apply find_some in F as [F _]. rewrite (AuthFacts.stored_from_dict _ _ H F). reflexivity.
Qed.

Lemma toggle_stored_fails_witness :
  all_stored (am_users (mkAdmin (users reg1) [] [])) = true /\
  toggle_user_status clock0 (mkAdmin (users reg1) [] []) 1000 "root"
    = (ToggleErr msg_unexpected_id, mkAdmin (users reg1) [] []).
Proof.
  split; [vm_compute; reflexivity|].
  exact (toggle_stored_fails clock0 (mkAdmin (users reg1) [] []) 1000 "root"
           ltac:(vm_compute; reflexivity)).
Defined.




Lemma flat_map_le {A B} (f : A -> list B) l :
  (forall x, length (f x) <= 1)%nat -> (length (flat_map f l) <= length l)%nat.
Proof.
  intros Hf. induction l as [|x r IH]; simpl; [lia|].
  rewrite length_app. specialize (Hf x). lia.
Qed.

(** [get_all_users] for [page >= 1] and [per_page >= 1]: [total] is the
    number of documents, [total_pages] is the ceiling of
    [total / per_page], a page holds at most [per_page] rows, and a page
    past [total_pages] is empty. *)
Theorem get_all_users_pagination clk st page per_page :
  1 <= page -> 1 <= per_page ->
  let r := get_all_users clk st page per_page in
  page_total r = Z.of_nat (length (am_users st)) /\
  page_num r = page /\ page_per_page r = per_page /\
  Z.of_nat (length (page_users r)) <= per_page /\
  (total_pages r - 1) * per_page < page_total r <= total_pages r * per_page /\
  (total_pages r < page -> page_users r = []).
Proof.
  intros Hp Hq. unfold get_all_users.
  replace ((page <? 1) || (per_page <? 1)) with false
    by (symmetry; apply orb_false_iff; split; apply Z.ltb_ge; lia).
  cbv zeta. cbn [page_total page_num page_per_page page_users total_pages].
  set (n := length (am_users st)).
  pose proof (Z.div_mod (Z.of_nat n + per_page - 1) per_page ltac:(lia)) as Hd.
  pose proof (Z.mod_pos_bound (Z.of_nat n + per_page - 1) per_page ltac:(lia)) as Hm.
  set (q := (Z.of_nat n + per_page - 1) / per_page) in *.
  set (m := (Z.of_nat n + per_page - 1) mod per_page) in *.
  split; [reflexivity|]. split; [reflexivity|]. split; [reflexivity|]. split.
  - match goal with |- context [flat_map ?f ?l] =>
      assert (Hl : (length (flat_map f l) <= length l)%nat)
        by (apply flat_map_le; intros x; destruct (from_dict x); simpl; lia) end.
    pose proof (firstn_le_length (Z.to_nat per_page) (skipn (Z.to_nat ((page - 1) * per_page)) (am_users st))).
    lia.
  - split; [split; nia|].
    intros Hlt. rewrite skipn_all2; [rewrite firstn_nil; reflexivity|]. fold n. nia.
Qed.

Lemma get_all_users_pagination_witness :
  1 <= 2 /\ 1 <= 1 /\
  (let r := get_all_users clock0 (admin_one basic_user) 2 1 in
   page_total r = Z.of_nat (length (am_users (admin_one basic_user))) /\
   page_num r = 2 /\ page_per_page r = 1 /\
   Z.of_nat (length (page_users r)) <= 1 /\
   (total_pages r - 1) * 1 < page_total r <= total_pages r * 1 /\
   (total_pages r < 2 -> page_users r = [])).
Proof.
  split; [lia|]. split; [lia|].
  apply get_all_users_pagination; lia.
Defined.

Lemma in_firstn_skipn {A} (x : A) n m l : In x (firstn n (skipn m l)) -> In x l.
Proof.
  intros H. rewrite <- (firstn_skipn m l). apply in_or_app. right.
  rewrite <- (firstn_skipn n (skipn m l)). apply in_or_app. left. exact H.
Qed.

(** [get_all_users] on a collection whose documents all carry the [_id]
    of the insert lists no user at all, whatever the page: every document
    is skipped by the [except] around [User.from_dict]. *)
Theorem get_all_users_stored_empty clk st page per_page :
  all_stored (am_users st) = true -> page_users (get_all_users clk st page per_page) = [].
Proof.
  intros H. unfold get_all_users. destruct (_ || _); [reflexivity|]. cbv zeta; cbn [page_users].
  match goal with |- flat_map _ ?l = [] =>
    assert (Hs : forall d, In d l -> from_dict d = None)
      by (intros d Hd; apply (AuthFacts.stored_from_dict _ _ H); exact (in_firstn_skipn _ _ _ _ Hd));
    induction l as [|d r IH] end; [reflexivity|].
  simpl. rewrite (Hs d (or_introl eq_refl)). apply IH. intros x Hx. exact (Hs x (or_intror Hx)).
Qed.

Lemma get_all_users_stored_empty_witness :
  all_stored (am_users (mkAdmin (users reg1) [] [])) = true /\
  page_total (get_all_users clock0 (mkAdmin (users reg1) [] []) 1 50) = 1 /\
  page_users (get_all_users clock0 (mkAdmin (users reg1) [] []) 1 50) = [].
Proof.
  split; [vm_compute; reflexivity|]. split; [vm_compute; reflexivity|].
  apply get_all_users_stored_empty. vm_compute. reflexivity.
Defined.

(** The [user_stats] of [get_dashboard_stats]: the three tier counts add
    up to the number of users, while the active, inactive and blocked
    counts add up to it only together with the suspended accounts, which
    the dashboard does not count. *)
Theorem dashboard_user_counts st :
  let s := dashboard_user_stats st in
  basic_users s + premium_users s + vip_users s = total_users s /\
  active_users s + inactive_users s + blocked_users s
    + count_documents (fun u => String.eqb (UserStatus_value (status u)) "suspended") (am_users st)
    = total_users s.
Proof.
  unfold dashboard_user_stats, count_documents. cbv zeta.
  cbn [total_users active_users inactive_users blocked_users basic_users premium_users vip_users].
  unfold UserTier_value at 2 4 6, UserStatus_value at 2 4 6.
  induction (am_users st) as [|d r IH]; [split; reflexivity|].
  destruct IH as [IH1 IH2]. simpl filter.
  destruct (tier (doc d)), (status (doc d)); simpl filter; simpl length; split; lia.
Qed.

Lemma summary_key_iff uid d s :
  summary_key uid d s = true <-> (sum_user_id s, sum_date s) = (uid, d).
Proof.
  unfold summary_key. rewrite andb_true_iff, Z.eqb_eq, String.eqb_eq.
  split; [intros [-> ->]; reflexivity|intros H; injection H as -> ->; split; reflexivity].
Qed.

Lemma replace_keys n uid d s db :
  (sum_user_id s, sum_date s) = (uid, d) ->
  map (fun x => (sum_user_id (sdoc x), sum_date (sdoc x))) (replace_summary_at n uid d s db) =
  if existsb (fun x => summary_key uid d (sdoc x)) db
  then map (fun x => (sum_user_id (sdoc x), sum_date (sdoc x))) db
  else app (map (fun x => (sum_user_id (sdoc x), sum_date (sdoc x))) db) [(uid, d)].
Proof.
  intros Hs. revert n. induction db as [|x r IH]; intros n; simpl; [rewrite Hs; reflexivity|].
  destruct (summary_key uid d (sdoc x)) eqn:E; simpl.
  - apply summary_key_iff in E. rewrite Hs, E. reflexivity.
  - rewrite IH. destruct (existsb _ r); reflexivity.
Qed.

(** [log_analysis] appends exactly its entry to the logs, leaves the
    users alone, and keeps at most one daily summary per (user, date),
    the unique index of [daily_summaries]. *)
Theorem log_analysis_summary_keys clk st uid t ok pt err gp ut :
  NoDup (map (fun x => (sum_user_id (sdoc x), sum_date (sdoc x))) (am_summaries st)) ->
  let st1 := log_analysis clk st uid t ok pt err gp ut in
  NoDup (map (fun x => (sum_user_id (sdoc x), sum_date (sdoc x))) (am_summaries st1)) /\
  am_logs st1 = app (am_logs st) [mkLog uid t ok pt err ut gp] /\
  am_users st1 = am_users st.
Proof.
  intros H. cbv zeta. unfold log_analysis. cbn [am_summaries am_logs am_users].
  split; [|split; reflexivity].
  unfold _update_daily_summary. cbv zeta.
  set (db := am_summaries st) in *.
  set (pt' := match pt with Some x => x | None => 0%Q end).
  assert (Hk : forall s, (sum_user_id s, sum_date s) = (uid, today clk) ->
     NoDup (map (fun x => (sum_user_id (sdoc x), sum_date (sdoc x)))
              (replace_summary uid (today clk) (bump_summary s t ok pt') db))).
  { intros s Hs. unfold replace_summary. rewrite replace_keys by exact Hs.
    destruct (existsb _ db) eqn:E; [exact H|].
    apply AuthFacts.nodup_snoc; [exact H|]. intros Hin.
    apply in_map_iff in Hin as [x [Hx Hin]].
    rewrite <- Bool.not_true_iff_false, existsb_exists in E. apply E.
    exists x. split; [exact Hin|]. apply summary_key_iff. exact Hx. }
  destruct (find_summary uid (today clk) db) as [x|] eqn:F.
  - unfold summary_from_dict. destruct (s_id x); [exact H|].
    apply Hk. apply find_some in F as [_ F]. apply summary_key_iff. exact F.
  - apply Hk. reflexivity.
Qed.

Lemma log_analysis_summary_keys_witness :
  NoDup (map (fun x => (sum_user_id (sdoc x), sum_date (sdoc x))) (am_summaries (admin_one basic_user))) /\
  (let st1 := log_analysis clock0 (admin_one basic_user) 1000 QUICK true (Some 2%Q) None None BASIC in
   NoDup (map (fun x => (sum_user_id (sdoc x), sum_date (sdoc x))) (am_summaries st1)) /\
   am_logs st1 = app (am_logs (admin_one basic_user)) [mkLog 1000 QUICK true (Some 2%Q) None BASIC None] /\
   am_users st1 = am_users (admin_one basic_user)).
Proof.
  split; [constructor|].
  apply log_analysis_summary_keys. constructor.
Defined.

End AdminFacts.

(* ------------------------------------------------------------------ *)
(** ** Further properties of [gold_price.py] *)

Module PriceFacts.

Import GoldPriceMgr PriceScenarios.
Local Open Scope Q_scope.









Lemma test_apis_try_none po net now l :
  forallb (fun x => negb (snd x))
    (map (fun a => (fst a, match _fetch_from_api po now (fst a) (net (fst a)) with
                           | Some _ => true | None => false end)) l) = true ->
  try_apis po net now l = None.
Proof.
  induction l as [|[name cfg] r IH]; simpl; [reflexivity|].
  destruct (_fetch_from_api po now name (net name)); simpl; [discriminate|exact IH].
Qed.

(** [test_apis]: when it reports every provider as failing, a call of
    [get_current_price] that bypasses the cache with the same provider
    answers does not get a fresh quote: it serves the fallback, marked
    with the fallback source. *)
Theorem test_apis_all_fail_fallback po net now m :
  forallb (fun x => negb (snd x)) (test_apis po net now m) = true ->
  exists p m', get_current_price po net now false m = (Some p, m') /\ source p = fallback_source.
Proof.
  intros H. unfold get_current_price. cbv zeta.
  rewrite (test_apis_try_none po net now (active_apis m) H).
  destruct (cache_price (gold_cache m)) as [cp|]; eexists; eexists; split; reflexivity.
Qed.

Lemma test_apis_all_fail_fallback_witness :
  forallb (fun x => negb (snd x)) (test_apis (fun _ _ _ => None) all_down 0 empty_manager) = true /\
  exists p m', get_current_price (fun _ _ _ => None) all_down 0 false empty_manager = (Some p, m') /\
    source p = fallback_source.
Proof.
  split; [vm_compute; reflexivity|]. apply test_apis_all_fail_fallback. vm_compute. reflexivity.
Defined.

Lemma gcp_caches_answer po net now uc m p m1 :
  get_current_price po net now uc m = (Some p, m1) -> cache_price (gold_cache m1) = Some p.
Proof.
  unfold get_current_price. cbv zeta.
  destruct (if uc then _ else None) as [cp|] eqn:C.
  - intros H; injection H as <- <-. destruct uc; [|discriminate].
    destruct (cache_price (gold_cache m)) as [c|] eqn:E; [|discriminate].
    destruct (Qle_bool _ _); [discriminate|]. congruence.
  - destruct (try_apis po net now (active_apis m)) as [q|];
      [intros H; injection H as <- <-; reflexivity|].
    destruct (cache_price (gold_cache m)); intros H; injection H as <- <-; reflexivity.
Qed.

(** [get_current_price]: whatever a call answers (a cached, fresh, stale
    or placeholder quote) is what the cache then holds; a later call with
    the cache enabled, before that entry expires, answers the same quote
    whatever the providers would say, and changes nothing. *)
Theorem cache_serves_last_answer po net net' now now' uc m p m1 :
  get_current_price po net now uc m = (Some p, m1) ->
  now' - cache_timestamp (gold_cache m1) < cache_duration (gold_cache m1) ->
  get_current_price po net' now' true m1 = (Some p, m1).
Proof.
  intros H Hlt. apply PriceProofs.gcp_cache_hit; [|exact Hlt].
  exact (gcp_caches_answer _ _ _ _ _ _ _ H).
Qed.

Lemma cache_serves_last_answer_witness :
  get_current_price (fun _ _ _ => None) all_down 0 true empty_manager =
    (Some (demo_price 0), mkManager two_apis (mkCache (Some (demo_price 0)) 0 (15 * 60))) /\
  60 - cache_timestamp (gold_cache (mkManager two_apis (mkCache (Some (demo_price 0)) 0 (15 * 60))))
    < cache_duration (gold_cache (mkManager two_apis (mkCache (Some (demo_price 0)) 0 (15 * 60)))) /\
  get_current_price (fun _ _ _ => None) net_429_then_price 60 true
    (mkManager two_apis (mkCache (Some (demo_price 0)) 0 (15 * 60))) =
    (Some (demo_price 0), mkManager two_apis (mkCache (Some (demo_price 0)) 0 (15 * 60))).
Proof.
  assert (H : get_current_price (fun _ _ _ => None) all_down 0 true empty_manager =
    (Some (demo_price 0), mkManager two_apis (mkCache (Some (demo_price 0)) 0 (15 * 60))))
    by (vm_compute; reflexivity).
  split; [exact H|]. split; [reflexivity|].
  exact (cache_serves_last_answer _ _ net_429_then_price _ 60 _ _ _ _ H eq_refl).
Defined.

End PriceFacts.

(* ------------------------------------------------------------------ *)
(** ** Further properties of [backend/server.py] *)

Module ServerFacts.

Import Models Auth Admin GoldPriceMgr Server PriceScenarios.
Local Open Scope Q_scope.

Lemma analysis_type_ids_iff s :
  In s analysis_type_ids <-> AnalysisType_of_string s <> None.
Proof.
  split.
  - intros H. repeat destruct H as [<-|H]; try (vm_compute; discriminate). destruct H.
  - unfold AnalysisType_of_string.
    destruct (String.eqb_spec s "quick"); [subst; intros _; left; reflexivity|].
    destruct (String.eqb_spec s "detailed"); [subst; intros _; right; left; reflexivity|].
    destruct (String.eqb_spec s "chart"); [subst; intros _; do 2 right; left; reflexivity|].
    destruct (String.eqb_spec s "news"); [subst; intros _; do 3 right; left; reflexivity|].
    destruct (String.eqb_spec s "forecast"); [subst; intros _; do 4 right; left; reflexivity|].
    intros H. exfalso. exact (H eq_refl).
Qed.

(** [analyze_gold] accepts exactly the analysis types listed by
    [GET /analysis-types]; any other type is answered with the
    invalid-type error, without fetching a price, calling the analysis
    service or writing a log. *)
Theorem analyze_gold_type_check po gen clk net pt st req :
  (In (analysis_type req) analysis_type_ids <-> AnalysisType_of_string (analysis_type req) <> None) /\
  (~ In (analysis_type req) analysis_type_ids ->
   analyze_gold po gen clk net pt st req = (mkAResp false None None (Some msg_bad_type) None, st)).
Proof.
  split; [apply analysis_type_ids_iff|].
  intros H. unfold analyze_gold.
  destruct (AnalysisType_of_string (analysis_type req)) eqn:E; [|reflexivity].
  exfalso. apply H, analysis_type_ids_iff. rewrite E. discriminate.
Qed.

(** [analyze_gold] with a valid type appends exactly one entry to the
    analysis logs, always for user 1 and tier BASIC, with the requested
    type, the measured time and the outcome of the response; on success
    the logged price is the one the response carries. *)
Theorem analyze_gold_logs_once po gen clk net pt st req t :
  AnalysisType_of_string (analysis_type req) = Some t ->
  let (resp, st') := analyze_gold po gen clk net pt st req in
  exists e, am_logs (admin_manager st') = app (am_logs (admin_manager st)) [e] /\
    log_user_id e = 1%Z /\ log_user_tier e = BASIC /\ log_analysis_type e = t /\
    log_success e = a_success resp /\ log_processing_time e = Some pt /\
    (a_success resp = true -> log_gold_price e = price_as_float (a_gold_price resp)).
Proof.
  intros H. unfold analyze_gold. rewrite H.
  destruct (get_current_price po net (now clk) true (price_manager st)) as [gp pm].
  cbv zeta.
  match goal with |- context [gen t gp ?c] => destruct (gen t gp c) end;
    eexists; (split; [reflexivity|]); repeat split; try reflexivity; discriminate.
Qed.

Lemma analyze_gold_logs_once_witness :
  AnalysisType_of_string (analysis_type (mkReq "quick" None None)) = Some QUICK /\
  let (resp, st') := analyze_gold (fun _ _ _ => None) gen_ok Scenarios.clock0 all_down 2
                       (mkServer empty_manager (Scenarios.admin_one Scenarios.basic_user))
                       (mkReq "quick" None None) in
  exists e, am_logs (admin_manager st') =
              app (am_logs (admin_manager (mkServer empty_manager (Scenarios.admin_one Scenarios.basic_user)))) [e] /\
    log_user_id e = 1%Z /\ log_user_tier e = BASIC /\ log_analysis_type e = QUICK /\
    log_success e = a_success resp /\ log_processing_time e = Some 2 /\
    (a_success resp = true -> log_gold_price e = price_as_float (a_gold_price resp)).
Proof.
  split; [reflexivity|].
  apply (analyze_gold_logs_once (fun _ _ _ => None) gen_ok Scenarios.clock0 all_down 2
           (mkServer empty_manager (Scenarios.admin_one Scenarios.basic_user))
           (mkReq "quick" None None) QUICK).
  reflexivity.
Defined.

End ServerFacts.
